(** * Binary build instantiation: launch, wait, upload, compensating cancel

    A shallow embedding of
    [pkg/build/apiserver/registry/buildconfiginstantiate/rest.go].

    The handler talks to collaborators that live outside that file (the build
    generator, the phase tracker, the remote-exec transport, the scheme
    converter, the clock, the poller of [k8s.io/apimachinery/pkg/util/wait]).
    They are modelled as an environment of oracles; every call the handler
    makes is appended to a chronological trace, and every oracle may answer
    according to the whole trace so far.  The handler itself is translated
    statement by statement into a state monad over that trace. *)

From Stdlib Require Import ZArith List String Bool Lia.
From Stdlib.Strings Require Import Byte.
Import ListNotations.

Local Open Scope string_scope.
Local Open Scope Z_scope.
Local Open Scope list_scope.

(* ================================================================== *)
(** ** time.Duration *)

(** [time.Duration] is an int64 count of nanoseconds. *)
Definition Nanosecond : Z := 1.
Definition Millisecond : Z := 1000000 * Nanosecond.
Definition Second : Z := 1000 * Millisecond.
Definition Minute : Z := 60 * Second.

Definition minDuration : Z := - 2 ^ 63.
Definition maxDuration : Z := 2 ^ 63 - 1.

(** Two's-complement wrap-around of int64 arithmetic. *)
Definition wrap64 (z : Z) : Z := (z + 2 ^ 63) mod 2 ^ 64 - 2 ^ 63.

(** [Duration - Duration] on int64. *)
Definition sub64 (a b : Z) : Z := wrap64 (a - b).

(** [Time.Sub] saturates at the extreme durations. *)
Definition sat64 (z : Z) : Z := Z.max minDuration (Z.min z maxDuration).

(** [var ( cancelPollInterval = 500 * time.Millisecond
           cancelPollDuration = 30 * time.Second )] *)
Definition cancelPollInterval : Z := 500 * Millisecond.
Definition cancelPollDuration : Z := 30 * Second.

(* ================================================================== *)
(** ** Errors of [k8s.io/apimachinery/pkg/api/errors]

    The constructors the handler calls ([NewBadRequest], [NewTimeoutError],
    [NewInternalError]) and [fmt.Sprintf] are kept symbolic: a message is its
    format string with the list of its arguments, an internal error carries
    the error it wraps. *)

(** [metav1.StatusDetails]: the kind and the name of the resource an error
    is about. *)
Record StatusDetails := {
  details_Kind : string;
  details_Name : string
}.

(** The part of [metav1.Status] the handler and the responder look at.
    [Kind] is the kind of the embedded [TypeMeta], the kind of the status
    object itself; the resource an error is about is in [Details]. *)
Record Status := {
  Kind : string;
  Reason : string;
  Code : Z;
  Details : option StatusDetails
}.

Definition StatusReasonUnknown : string := EmptyString.
Definition StatusReasonNotFound : string := "NotFound".
Definition StatusReasonConflict : string := "Conflict".
Definition StatusReasonBadRequest : string := "BadRequest".
Definition StatusReasonTimeout : string := "Timeout".
Definition StatusReasonInternalError : string := "InternalError".

Inductive error : Type :=
| ErrBuildDeleted                              (* buildwait.ErrBuildDeleted *)
| ErrWaitTimeout                               (* wait.ErrWaitTimeout *)
| GoError (text : string)                      (* an error that is no APIStatus *)
| StatusError (s : Status) (text : string)     (* an APIStatus of a collaborator *)
| NewBadRequest (m : message)
| NewTimeoutError (m : message) (retryAfterSeconds : Z)
| NewInternalError (cause : error)
with message : Type :=
| Sprintf (format : string) (args : list fmtarg)
with fmtarg : Type :=
| AString (s : string)
| ADuration (d : Z)
| AError (e : error).

(** [err.(errors.APIStatus)] followed by [.Status()]. *)
Definition APIStatus (e : error) : option Status :=
  match e with
  | StatusError s _ => Some s
  | NewBadRequest _ =>
      Some {| Kind := EmptyString; Reason := StatusReasonBadRequest; Code := 400;
              Details := None |}
  | NewTimeoutError _ _ =>
      Some {| Kind := EmptyString; Reason := StatusReasonTimeout; Code := 504;
              Details := Some {| details_Kind := EmptyString;
                                 details_Name := EmptyString |} |}
  | NewInternalError _ =>
      Some {| Kind := EmptyString; Reason := StatusReasonInternalError; Code := 500;
              Details := Some {| details_Kind := EmptyString;
                                 details_Name := EmptyString |} |}
  | ErrBuildDeleted | ErrWaitTimeout | GoError _ => None
  end.

Definition ReasonForError (e : error) : string :=
  match APIStatus e with
  | Some s => Reason s
  | None => StatusReasonUnknown
  end.

Definition IsNotFound (e : error) : bool :=
  (ReasonForError e =? StatusReasonNotFound)%string.

Definition IsConflict (e : error) : bool :=
  (ReasonForError e =? StatusReasonConflict)%string.

(** [errors.NewNotFound(qualifiedResource, name)] of apimachinery: reason
    NotFound, code 404, the resource in [Details.Kind] and the name in
    [Details.Name]; the kind of the status object itself is left empty.  The
    message is the resource, the quoted name and "not found". *)
Definition NewNotFound (resource name : string) : error :=
  let quote := String (Ascii.ascii_of_nat 34) EmptyString in
  StatusError {| Kind := EmptyString;
                 Reason := StatusReasonNotFound;
                 Code := 404;
                 Details := Some {| details_Kind := resource;
                                    details_Name := name |} |}
              (resource ++ " " ++ quote ++ name ++ quote ++ " not found")%string.

(** A not-found error about a resource of kind [resource]: the resource
    kind of an error is the kind in its details. *)
Definition not_found_for (resource : string) (e : error) : bool :=
  match APIStatus e with
  | Some s =>
      (Reason s =? StatusReasonNotFound)%string &&
      match Details s with
      | Some d => (details_Kind d =? resource)%string
      | None => false
      end
  | None => false
  end.

(** The durations a message names: its [time.Duration] arguments. *)
Definition message_durations (m : message) : list Z :=
  match m with
  | Sprintf _ args =>
      flat_map (fun a => match a with ADuration d => [d] | _ => [] end) args
  end.

(** The strings a message names: its string arguments. *)
Definition message_strings (m : message) : list string :=
  match m with
  | Sprintf _ args =>
      flat_map (fun a => match a with AString s => [s] | _ => [] end) args
  end.

(* ================================================================== *)
(** ** Build objects *)

(** Modelled from the spec: the phase constants of [buildv1], which the
    handler compares against; they carry the names of the spec's Phase enum.
    [buildv1.BuildPhase] is a string type, so that any string can come back
    from the object store. *)
Definition BuildPhase := string.
Definition BuildPhaseNew : BuildPhase := "New".
Definition BuildPhasePending : BuildPhase := "Pending".
Definition BuildPhaseRunning : BuildPhase := "Running".
Definition BuildPhaseComplete : BuildPhase := "Complete".
Definition BuildPhaseFailed : BuildPhase := "Failed".
Definition BuildPhaseError : BuildPhase := "Error".
Definition BuildPhaseCancelled : BuildPhase := "Cancelled".

Inductive CustomBuildStrategy : Type :=
| MkCustomBuildStrategy (from : string).

(** The internal API types, [buildapi]. *)
Module buildapi.

Record BuildStatus := {
  Phase : BuildPhase;
  Cancelled : bool;
  Reason : string;
  Message : string
}.

Record Build := {
  Name : string;
  Namespace : string;
  ResourceVersion : string;
  CustomStrategy : option CustomBuildStrategy;  (* Spec.Strategy.CustomStrategy *)
  Status : BuildStatus
}.

Record SourceControlUser := {
  user_Name : string;
  user_Email : string
}.

Record GitSourceRevision := {
  git_Commit : string;
  git_Author : SourceControlUser;
  git_Committer : SourceControlUser;
  git_Message : string
}.

Record SourceRevision := {
  Git : option GitSourceRevision
}.

Record BinaryBuildSource := {
  AsFile : string
}.

Record BuildTriggerCause := {
  cause_Message : string
}.

(** A nil slice is [None]; an empty, non-nil one is [Some []]. *)
Record BuildRequest := {
  req_Name : string;
  req_Revision : option SourceRevision;
  req_Binary : option BinaryBuildSource;
  req_TriggeredBy : option (list BuildTriggerCause)
}.

Record BinaryBuildRequestOptions := {
  opt_Name : string;
  opt_AsFile : string;
  opt_Commit : string;
  opt_Message : string;
  opt_AuthorName : string;
  opt_AuthorEmail : string;
  opt_CommitterName : string;
  opt_CommitterEmail : string
}.

End buildapi.

(** The versioned API types, [buildv1]. *)
Module buildv1.

Record BuildStatus := {
  Phase : BuildPhase;
  Cancelled : bool;
  Reason : string;
  Message : string
}.

Record Build := {
  Name : string;
  Namespace : string;
  ResourceVersion : string;
  CustomStrategy : option CustomBuildStrategy;
  Status : BuildStatus
}.

(** [versionedBuild.Status.Cancelled = true] *)
Definition set_Cancelled (b : Build) : Build :=
  {| Name := Name b;
     Namespace := Namespace b;
     ResourceVersion := ResourceVersion b;
     CustomStrategy := CustomStrategy b;
     Status := {| Phase := Phase (Status b);
                  Cancelled := true;
                  Reason := Reason (Status b);
                  Message := Message (Status b) |} |}.

End buildv1.

(** Modelled from the spec: the two container names of [buildstrategy], the
    source-injection (clone) container and the custom-build container. *)
Inductive ContainerName : Type :=
| GitCloneContainer
| CustomBuild.

(** [kapi.PodAttachOptions] together with the pod it is sent to. *)
Record AttachRequest := {
  att_Pod : string;
  att_Namespace : string;
  att_Container : ContainerName;
  att_Stdin : bool
}.

(** What [buildwait.WaitForRunningBuild] returns: [(latest, ok, err)].  The
    handler reads [latest] only when [err] is nil and [ok] holds. *)
Record WaitResult := {
  wr_latest : buildv1.Build;
  wr_ok : bool;
  wr_err : option error
}.

Definition StatusCreated : Z := 201.

(* ================================================================== *)
(** ** Calls, traces and the environment *)

(** One entry per call that leaves the handler. *)
Inductive Event : Type :=
| EvBeforeCreate (o : buildapi.BinaryBuildRequestOptions)
| EvBeforeCreateRequest (req : buildapi.BuildRequest)
| EvCreateValidation (req : buildapi.BuildRequest)
| EvNow (t : Z)
| EvInstantiateInternal (req : buildapi.BuildRequest)
| EvWaitForRunningBuild (namespace name : string) (timeout : Z)
| EvRESTClientFor
| EvNewSPDYExecutor (a : AttachRequest)
| EvStream (a : AttachRequest) (stdin : list byte)
| EvConvert (b : buildapi.Build)
| EvUpdateBuild (b : buildv1.Build)
| EvGetBuild (name : string)
| EvRespondError (e : error)
| EvRespondObject (code : Z) (obj : buildv1.Build)
| EvBodyClose.

Definition Trace := list Event.

(** A Go result pair [(value, error)] of a collaborator that keeps to the
    convention of returning a value with a nil error and an error otherwise.
    An answer [(nil, nil)] is not among these results: what the handler does
    with a nil build that comes without an error is not modelled. *)
Definition GoResult (A : Type) : Type := (A + error)%type.

(** The collaborators.  An oracle that takes a [Trace] may answer differently
    on every call. *)
Record Env := {
  (* rest.BeforeCreate(BinaryStrategy, ctx, options) *)
  BeforeCreate : buildapi.BinaryBuildRequestOptions -> option error;
  (* rest.BeforeCreate(Strategy, ctx, obj) *)
  BeforeCreateRequest : buildapi.BuildRequest -> option error;
  (* monotonic clock reading of time.Now(), in nanoseconds *)
  Now : Trace -> Z;
  (* generator.InstantiateInternal(ctx, request) *)
  InstantiateInternal : Trace -> buildapi.BuildRequest -> GoResult buildapi.Build;
  (* how many ticks the runtime gets to deliver to one wait.Poll call *)
  PollTicks : Trace -> nat;
  (* buildwait.WaitForRunningBuild(client, namespace, name, timeout) *)
  WaitForRunningBuild : Trace -> string -> string -> Z -> WaitResult;
  (* restclient.RESTClientFor(config) *)
  RESTClientFor : Trace -> option error;
  (* remotecommand.NewSPDYExecutor(config, "POST", url) *)
  NewSPDYExecutor : Trace -> AttachRequest -> option error;
  (* exec.Stream(StreamOptions{Stdin: r}) *)
  Stream : Trace -> AttachRequest -> list byte -> option error;
  (* legacyscheme.Scheme.Convert(build, versionedBuild, nil) *)
  Convert : Trace -> buildapi.Build -> GoResult buildv1.Build;
  (* Generator.Client.UpdateBuild(ctx, versionedBuild) *)
  UpdateBuild : Trace -> buildv1.Build -> option error;
  (* Generator.Client.GetBuild(ctx, name, options) *)
  GetBuild : Trace -> string -> GoResult buildv1.Build;
  (* buildinternalhelpers.GetBuildPodName(build) *)
  GetBuildPodName : buildapi.Build -> string;
  (* buildutil.NoBuildLogsMessage *)
  NoBuildLogsMessage : string;
  (* buildapi.BuildTriggerCauseManualMsg *)
  BuildTriggerCauseManualMsg : string
}.

(** The state monad over the trace. *)
Definition M (A : Type) : Type := Trace -> A * Trace.

Definition ret {A} (a : A) : M A := fun t => (a, t).

Definition bind {A B} (m : M A) (k : A -> M B) : M B :=
  fun t => let (a, t') := m t in k a t'.

Declare Scope monad_scope.
Delimit Scope monad_scope with monad.
Notation "x <- m ;; k" := (bind m (fun x => k))
  (at level 61, m at next level, right associativity) : monad_scope.
Notation "' p <- m ;; k" := (bind m (fun x => match x with p => k end))
  (at level 61, p pattern, m at next level, right associativity) : monad_scope.
Notation "m ;;; k" := (bind m (fun _ => k))
  (at level 61, right associativity) : monad_scope.
Local Open Scope monad_scope.

(** Perform a call: ask the oracle on the trace so far, then log the call. *)
Definition call {A} (answer : Trace -> A) (e : Event) : M A :=
  fun t => (answer t, t ++ [e]).

(** What a handler invocation hands back: a value, an error, or a run-time
    panic (a nil pointer dereference). *)
Inductive Result (A : Type) : Type :=
| Ok (a : A)
| Err (e : error)
| Panic.
Arguments Ok {A} a.
Arguments Err {A} e.
Arguments Panic {A}.

(* ================================================================== *)
(** ** wait.Poll

    [wait.Poll(interval, timeout, condition)] runs [condition] on every tick
    of an [interval] ticker and once more when the [timeout] timer closes the
    tick channel.  An error of the condition ends the loop with that error,
    a [true] ends it with nil, and a [false] on the closed channel ends it
    with [ErrWaitTimeout].  A ticker delivers at most [timeout / interval]
    ticks before the timer fires (ticks are dropped while the condition
    runs).  With a timeout of 0 the library starts no timer: the channel is
    never closed and the loop goes on until the condition ends it.  A total
    function cannot follow such a loop for ever; [delivered] is then how far
    the run is followed, and the [ErrWaitTimeout] that [WaitFor] answers
    where it stops is no answer of the program.  What is stated about the
    end of a poll by timeout is stated for a timeout other than 0. *)

Definition poll_ticks (interval timeout : Z) (delivered : nat) : nat :=
  if timeout =? 0 then delivered
  else Nat.min delivered (Z.to_nat (timeout / interval)).

(** [WaitFor]: [ticks] is the number of ticks still to come before the
    channel closes. *)
Fixpoint WaitFor {S : Type} (ticks : nat)
    (condition : S -> M (bool * option error * S)) (s : S) {struct ticks}
  : M (option error * S) :=
  fun t =>
    let '(done, err, s', t') := condition s t in
    match err with
    | Some e => (Some e, s', t')
    | None =>
        if done then (None, s', t')
        else match ticks with
             | O => (Some ErrWaitTimeout, s', t')
             | S n => WaitFor n condition s' t'
             end
    end.

Definition Poll (env : Env) {S : Type} (interval timeout : Z)
    (condition : S -> M (bool * option error * S)) (s : S)
  : M (option error * S) :=
  fun t => WaitFor (poll_ticks interval timeout (PollTicks env t)) condition s t.

(* ================================================================== *)
(** ** The storage objects and the handler *)

(** [BinaryInstantiateREST]; its generator, build client and client
    configuration are the collaborators of [Env]. *)
Record BinaryInstantiateREST := {
  Timeout : Z
}.

(** [NewBinaryStorage] *)
Definition NewBinaryStorage : BinaryInstantiateREST :=
  {| Timeout := 5 * Minute |}.

(** [binaryInstantiateHandler] *)
Record binaryInstantiateHandler := {
  r : BinaryInstantiateREST;
  name : string;
  options : buildapi.BinaryBuildRequestOptions
}.

(** [h.options.Name = h.name] *)
Definition set_Name (o : buildapi.BinaryBuildRequestOptions) (n : string)
  : buildapi.BinaryBuildRequestOptions :=
  {| buildapi.opt_Name := n;
     buildapi.opt_AsFile := buildapi.opt_AsFile o;
     buildapi.opt_Commit := buildapi.opt_Commit o;
     buildapi.opt_Message := buildapi.opt_Message o;
     buildapi.opt_AuthorName := buildapi.opt_AuthorName o;
     buildapi.opt_AuthorEmail := buildapi.opt_AuthorEmail o;
     buildapi.opt_CommitterName := buildapi.opt_CommitterName o;
     buildapi.opt_CommitterEmail := buildapi.opt_CommitterEmail o |}.

(** The request [handle] builds, lines 175-195. *)
Definition binary_request (h : binaryInstantiateHandler)
    (o : buildapi.BinaryBuildRequestOptions) : buildapi.BuildRequest :=
  {| buildapi.req_Name := name h;
     buildapi.req_Revision :=
       if (0 <? String.length (buildapi.opt_Commit o))%nat then
         Some {| buildapi.Git := Some
           {| buildapi.git_Committer :=
                {| buildapi.user_Name := buildapi.opt_CommitterName o;
                   buildapi.user_Email := buildapi.opt_CommitterEmail o |};
              buildapi.git_Author :=
                {| buildapi.user_Name := buildapi.opt_AuthorName o;
                   buildapi.user_Email := buildapi.opt_AuthorEmail o |};
              buildapi.git_Message := buildapi.opt_Message o;
              buildapi.git_Commit := buildapi.opt_Commit o |} |}
       else None;
     buildapi.req_Binary := Some {| buildapi.AsFile := buildapi.opt_AsFile o |};
     buildapi.req_TriggeredBy := None |}.

(** [request.TriggeredBy = ...] of [InstantiateREST.Create]. *)
Definition set_TriggeredBy (req : buildapi.BuildRequest)
    (c : option (list buildapi.BuildTriggerCause)) : buildapi.BuildRequest :=
  {| buildapi.req_Name := buildapi.req_Name req;
     buildapi.req_Revision := buildapi.req_Revision req;
     buildapi.req_Binary := buildapi.req_Binary req;
     buildapi.req_TriggeredBy := c |}.

Section Handler.

Variable env : Env.

(** [time.Now()]: the reading is logged with the call. *)
Definition time_Now : M Z :=
  fun t => (Now env t, t ++ [EvNow (Now env t)]).

(** *** InstantiateREST.Create *)

Definition Create (obj : buildapi.BuildRequest)
    (createValidation : buildapi.BuildRequest -> option error)
  : M (GoResult buildapi.Build) :=
  e <- call (fun _ => BeforeCreateRequest env obj) (EvBeforeCreateRequest obj) ;;
  match e with
  | Some err => ret (inr err)
  | None =>
      e <- call (fun _ => createValidation obj) (EvCreateValidation obj) ;;
      match e with
      | Some err => ret (inr err)
      | None =>
          let request :=
            match buildapi.req_TriggeredBy obj with
            | None =>
                let buildTriggerCauses := [] in
                set_TriggeredBy obj
                  (Some (buildTriggerCauses ++
                           [{| buildapi.cause_Message :=
                                 BuildTriggerCauseManualMsg env |}]))
            | Some _ => obj
            end in
          call (fun t => InstantiateInternal env t request)
               (EvInstantiateInternal request)
      end
  end.

(** *** The launch loop, lines 199-214 *)

(** The closure handed to [wait.Poll]; its state is the captured variable
    [build]. *)
Definition launch_cond (request : buildapi.BuildRequest)
    (build : option buildapi.Build)
  : M (bool * option error * option buildapi.Build) :=
  res <- call (fun t => InstantiateInternal env t request)
              (EvInstantiateInternal request) ;;
  match res with
  | inr err =>
      let fail := ret (false, Some err, build) in
      if IsNotFound err then
        match APIStatus err with
        | Some s =>
            if (Kind s =? "imagestreamtags")%string
            then ret (false, None, build)
            else fail
        | None => fail
        end
      else fail
  | inl result => ret (true, None, Some result)
  end.

(** *** cancelBuild, lines 295-314 *)

(** The closure handed to [wait.Poll]; its state is the captured variable
    [versionedBuild]. *)
Definition cancel_cond (versionedBuild : buildv1.Build)
  : M (bool * option error * buildv1.Build) :=
  let versionedBuild := buildv1.set_Cancelled versionedBuild in
  err <- call (fun t => UpdateBuild env t versionedBuild)
              (EvUpdateBuild versionedBuild) ;;
  match err with
  | Some e =>
      if IsConflict e then
        g <- call (fun t => GetBuild env t (buildv1.Name versionedBuild))
                  (EvGetBuild (buildv1.Name versionedBuild)) ;;
        match g with
        | inl fetched => ret (false, None, fetched)
        | inr e' =>
            (* the loop ends here; the variable is not read again *)
            ret (false, Some e', versionedBuild)
        end
      else ret (true, Some e, versionedBuild)
  | None => ret (true, None, versionedBuild)
  end.

Definition cancelBuild (build : buildapi.Build) : M unit :=
  c <- call (fun t => Convert env t build) (EvConvert build) ;;
  match c with
  | inr _ => ret tt
  | inl versionedBuild =>
      let versionedBuild := buildv1.set_Cancelled versionedBuild in
      call (fun t => UpdateBuild env t versionedBuild)
           (EvUpdateBuild versionedBuild) ;;;
      Poll env cancelPollInterval cancelPollDuration
           cancel_cond versionedBuild ;;;
      ret tt
  end.

(** *** The upload, lines 255-290 *)

(** Returns the result together with the final value of [cancel]. *)
Definition upload (h : binaryInstantiateHandler) (body : list byte)
    (build : buildapi.Build) (latest : buildv1.Build)
  : M (Result buildv1.Build * bool) :=
  let buildPodName := GetBuildPodName env build in
  let container :=
    match buildapi.CustomStrategy build with
    | Some _ => CustomBuild
    | None => GitCloneContainer
    end in
  let req := {| att_Pod := buildPodName;
                att_Namespace := buildapi.Namespace build;
                att_Container := container;
                att_Stdin := true |} in
  e <- call (RESTClientFor env) EvRESTClientFor ;;
  match e with
  | Some err => ret (Err err, true)
  | None =>
      e <- call (fun t => NewSPDYExecutor env t req) (EvNewSPDYExecutor req) ;;
      match e with
      | Some err => ret (Err err, true)
      | None =>
          e <- call (fun t => Stream env t req body) (EvStream req body) ;;
          match e with
          | Some err => ret (Err (NewInternalError err), true)
          | None => ret (Ok latest, false)
          end
      end
  end.

(** *** The phase wait and its switch, lines 229-253 *)

Definition wait_and_upload (h : binaryInstantiateHandler) (body : list byte)
    (build : buildapi.Build) (remaining : Z)
  : M (Result buildv1.Build * bool) :=
  let bname := AString (buildapi.Name build) in
  let logs := AString (NoBuildLogsMessage env) in
  w <- call (fun t => WaitForRunningBuild env t (buildapi.Namespace build)
                        (buildapi.Name build) remaining)
            (EvWaitForRunningBuild (buildapi.Namespace build)
                        (buildapi.Name build) remaining) ;;
  let latest := wr_latest w in
  let phase := buildv1.Phase (buildv1.Status latest) in
  match wr_err w with
  | Some ErrBuildDeleted =>
      ret (Err (NewBadRequest
             (Sprintf "build %s was deleted before it started: %s"
                      [bname; logs])), true)
  | Some err =>
      ret (Err (NewBadRequest
             (Sprintf "unable to wait for build %s to run: %v"
                      [bname; AError err])), true)
  | None =>
      if negb (wr_ok w) then
        ret (Err (NewTimeoutError
               (Sprintf "timed out waiting for build %s to start after %s"
                        [bname; ADuration (Timeout (r h))]) 0), true)
      else if (phase =? BuildPhaseError)%string then
        ret (Err (NewBadRequest
               (Sprintf "build %s encountered an error: %s"
                        [bname; logs])), false)
      else if (phase =? BuildPhaseFailed)%string then
        ret (Err (NewBadRequest
               (Sprintf "build %s failed: %s: %s"
                        [bname;
                         AString (buildapi.Reason (buildapi.Status build));
                         AString (buildapi.Message (buildapi.Status build))])),
             false)
      else if (phase =? BuildPhaseCancelled)%string then
        ret (Err (NewBadRequest
               (Sprintf "build %s was cancelled: %s"
                        [bname; logs])), false)
      else if negb (phase =? BuildPhaseRunning)%string then
        ret (Err (NewBadRequest
               (Sprintf "cannot upload file to build %s with status %s"
                        [bname; AString phase])), true)
      else upload h body build latest
  end.

(** *** handle, lines 168-291 *)

(** [time.Since(start)] *)
Definition Since (start : Z) : M Z :=
  now <- time_Now ;;
  ret (sat64 (now - start)).

(** Lines 221-290: the deferred closure runs when the body has returned,
    with the value [cancel] has then. *)
Definition guarded (h : binaryInstantiateHandler) (body : list byte)
    (build : buildapi.Build) (remaining : Z) : M (Result buildv1.Build) :=
  '(res, cancel) <- wait_and_upload h body build remaining ;;
  (if cancel then cancelBuild build else ret tt) ;;;
  ret res.

Definition handle (h : binaryInstantiateHandler) (body : list byte)
  : M (Result buildv1.Build) :=
  let options := set_Name (options h) (name h) in
  e <- call (fun _ => BeforeCreate env options) (EvBeforeCreate options) ;;
  match e with
  | Some err => ret (Err err)
  | None =>
      let request := binary_request h options in
      start <- time_Now ;;
      '(err, build) <- Poll env Second (Timeout (r h))
                            (launch_cond request) None ;;
      match err with
      | Some e => ret (Err e)
      | None =>
          elapsed <- Since start ;;
          let remaining := sub64 (Timeout (r h)) elapsed in
          match build with
          | None => ret Panic
          | Some build => guarded h body build remaining
          end
      end
  end.

(** *** ServeHTTP, lines 158-166 *)

Definition ServeHTTP (h : binaryInstantiateHandler) (body : list byte)
  : M unit :=
  res <- handle h body ;;
  match res with
  | Err err => call (fun _ => tt) (EvRespondError err)
  | Ok build => call (fun _ => tt) (EvRespondObject StatusCreated build)
  | Panic => ret tt
  end ;;;
  call (fun _ => tt) EvBodyClose.

End Handler.

(* ================================================================== *)
(** ** Reading traces *)

Definition is_launch_event (e : Event) : bool :=
  match e with
  | EvBeforeCreate _ | EvNow _ | EvInstantiateInternal _ => true
  | _ => false
  end.

Definition is_instantiate_event (e : Event) : bool :=
  match e with
  | EvInstantiateInternal _ => true
  | _ => false
  end.

Definition is_wait_event (e : Event) : bool :=
  match e with
  | EvWaitForRunningBuild _ _ _ => true
  | _ => false
  end.

(** The calls of the attach-and-stream section. *)
Definition is_upload_event (e : Event) : bool :=
  match e with
  | EvRESTClientFor | EvNewSPDYExecutor _ | EvStream _ _ => true
  | _ => false
  end.

Definition is_stream_event (e : Event) : bool :=
  match e with
  | EvStream _ _ => true
  | _ => false
  end.

(** The calls of [cancelBuild]. *)
Definition is_cancel_event (e : Event) : bool :=
  match e with
  | EvConvert _ | EvUpdateBuild _ | EvGetBuild _ => true
  | _ => false
  end.

Definition is_update_event (e : Event) : bool :=
  match e with
  | EvUpdateBuild _ => true
  | _ => false
  end.

Definition is_get_event (e : Event) : bool :=
  match e with
  | EvGetBuild _ => true
  | _ => false
  end.

(** The upload was attempted: the flow went into the attach-and-stream
    section. *)
Definition upload_attempted (tr : Trace) : bool := existsb is_upload_event tr.

(** The stream call itself was made. *)
Definition stream_called (tr : Trace) : bool := existsb is_stream_event tr.

(** The cancellation was attempted: [cancelBuild] was entered. *)
Definition cancel_attempted (tr : Trace) : bool := existsb is_cancel_event tr.

Definition count (p : Event -> bool) (tr : Trace) : nat :=
  List.length (filter p tr).

(** The phase a wait reports: there is one only when the wait came back
    without an error and with [ok]. *)
Definition observed_phase (w : WaitResult) : option BuildPhase :=
  match wr_err w with
  | Some _ => None
  | None =>
      if wr_ok w then Some (buildv1.Phase (buildv1.Status (wr_latest w)))
      else None
  end.

(** The wait ran out: no error and not [ok]. *)
Definition timed_out (w : WaitResult) : bool :=
  match wr_err w with
  | Some _ => false
  | None => negb (wr_ok w)
  end.

(** The test of line 204: a not-found error whose [Status().Kind], the kind
    of the status object, is "imagestreamtags".  The resource an error is
    about is not read here; see [not_found_for]. *)
Definition image_stream_tag_not_found (e : error) : bool :=
  match APIStatus e with
  | Some s =>
      ((Reason s =? StatusReasonNotFound) && (Kind s =? "imagestreamtags"))%string
  | None => false
  end.

Definition is_Err {A} (x : Result A) : bool :=
  match x with
  | Err _ => true
  | _ => false
  end.

(** The environment with other answers for the three calls of
    [cancelBuild]. *)
Definition with_cleanup (env : Env)
    (convert : Trace -> buildapi.Build -> GoResult buildv1.Build)
    (update : Trace -> buildv1.Build -> option error)
    (get : Trace -> string -> GoResult buildv1.Build) : Env :=
  {| BeforeCreate := BeforeCreate env;
     BeforeCreateRequest := BeforeCreateRequest env;
     Now := Now env;
     InstantiateInternal := InstantiateInternal env;
     PollTicks := PollTicks env;
     WaitForRunningBuild := WaitForRunningBuild env;
     RESTClientFor := RESTClientFor env;
     NewSPDYExecutor := NewSPDYExecutor env;
     Stream := Stream env;
     Convert := convert;
     UpdateBuild := update;
     GetBuild := get;
     GetBuildPodName := GetBuildPodName env;
     NoBuildLogsMessage := NoBuildLogsMessage env;
     BuildTriggerCauseManualMsg := BuildTriggerCauseManualMsg env |}.

(** The part of [handle] before the guard exists, lines 169-217: on success
    the launched build and the remaining budget. *)
Definition launch_stage (env : Env) (h : binaryInstantiateHandler)
  : M (Result (buildapi.Build * Z)) :=
  let options := set_Name (options h) (name h) in
  e <- call (fun _ => BeforeCreate env options) (EvBeforeCreate options) ;;
  match e with
  | Some err => ret (Err err)
  | None =>
      let request := binary_request h options in
      start <- time_Now env ;;
      '(err, build) <- Poll env Second (Timeout (r h))
                            (launch_cond env request) None ;;
      match err with
      | Some e => ret (Err e)
      | None =>
          elapsed <- Since env start ;;
          match build with
          | None => ret Panic
          | Some build => ret (Ok (build, sub64 (Timeout (r h)) elapsed))
          end
      end
  end.

(** The wait reports one of the three phases a build ends in by itself. *)
Definition observed_terminal (w : WaitResult) : bool :=
  match observed_phase w with
  | Some p =>
      ((p =? BuildPhaseError) || (p =? BuildPhaseFailed) ||
       (p =? BuildPhaseCancelled))%string
  | None => false
  end.

(** The wait reports phase Running. *)
Definition observed_running (w : WaitResult) : bool :=
  match observed_phase w with
  | Some p => (p =? BuildPhaseRunning)%string
  | None => false
  end.

(** The call of the phase wait for a launched build. *)
Definition wait_event (build : buildapi.Build) (remaining : Z) : Event :=
  EvWaitForRunningBuild (buildapi.Namespace build) (buildapi.Name build)
                        remaining.

(** The attach request [handle] makes for a launched build, lines 255-277. *)
Definition attach_request (env : Env) (build : buildapi.Build) : AttachRequest :=
  {| att_Pod := GetBuildPodName env build;
     att_Namespace := buildapi.Namespace build;
     att_Container :=
       match buildapi.CustomStrategy build with
       | Some _ => CustomBuild
       | None => GitCloneContainer
       end;
     att_Stdin := true |}.


(* ================================================================== *)
(** ** Concrete runs

    Small environments on which the handler is evaluated: every call takes
    one second of the clock, the poller is never short of ticks, and the
    answers of the generator, the phase tracker, the stream and the update
    are chosen per scenario. *)

Module Scenario.

Definition launched : buildapi.Build :=
  {| buildapi.Name := "app-1";
     buildapi.Namespace := "demo";
     buildapi.ResourceVersion := "1";
     buildapi.CustomStrategy := None;
     buildapi.Status := {| buildapi.Phase := BuildPhaseNew;
                           buildapi.Cancelled := false;
                           buildapi.Reason := EmptyString;
                           buildapi.Message := EmptyString |} |}.

Definition snapshot (version : string) (phase : BuildPhase)
    (reason message : string) : buildv1.Build :=
  {| buildv1.Name := "app-1";
     buildv1.Namespace := "demo";
     buildv1.ResourceVersion := version;
     buildv1.CustomStrategy := None;
     buildv1.Status := {| buildv1.Phase := phase;
                          buildv1.Cancelled := false;
                          buildv1.Reason := reason;
                          buildv1.Message := message |} |}.

Definition not_found (kind : string) : error :=
  StatusError {| Kind := kind; Reason := StatusReasonNotFound; Code := 404;
                 Details := None |}
              "not found".

Definition conflict : error :=
  StatusError {| Kind := EmptyString; Reason := StatusReasonConflict; Code := 409;
                 Details := None |}
              "the object has been modified".

Definition mk_env
    (instantiate : Trace -> GoResult buildapi.Build)
    (waited : WaitResult)
    (stream : option error)
    (update : Trace -> option error) : Env :=
  {| BeforeCreate := fun _ => None;
     BeforeCreateRequest := fun _ => None;
     Now := fun t => Z.of_nat (List.length t) * Second;
     InstantiateInternal := fun t _ => instantiate t;
     PollTicks := fun _ => 1000%nat;
     WaitForRunningBuild := fun _ _ _ _ => waited;
     RESTClientFor := fun _ => None;
     NewSPDYExecutor := fun _ _ => None;
     Stream := fun _ _ _ => stream;
     Convert := fun _ b =>
       inl (snapshot (buildapi.ResourceVersion b) BuildPhaseNew EmptyString EmptyString);
     UpdateBuild := fun t _ => update t;
     GetBuild := fun _ _ => inl (snapshot "7" BuildPhaseRunning EmptyString EmptyString);
     GetBuildPodName := fun b => (buildapi.Name b ++ "-build")%string;
     NoBuildLogsMessage := "no logs";
     BuildTriggerCauseManualMsg := "manual" |}.

(** The generator fails [n] times with a missing image stream tag, then
    creates the build.  Two calls precede the first instantiation. *)
Definition tag_missing (n : nat) (t : Trace) : GoResult buildapi.Build :=
  if (List.length t <? 2 + n)%nat then inr (not_found "imagestreamtags")
  else inl launched.

Definition reports (phase : BuildPhase) (reason message : string) : WaitResult :=
  {| wr_latest := snapshot "3" phase reason message;
     wr_ok := true;
     wr_err := None |}.

Definition ran_out : WaitResult :=
  {| wr_latest := snapshot "3" BuildPhasePending EmptyString EmptyString;
     wr_ok := false;
     wr_err := None |}.

Definition plain : buildapi.BinaryBuildRequestOptions :=
  {| buildapi.opt_Name := EmptyString;
     buildapi.opt_AsFile := EmptyString;
     buildapi.opt_Commit := EmptyString;
     buildapi.opt_Message := EmptyString;
     buildapi.opt_AuthorName := EmptyString;
     buildapi.opt_AuthorEmail := EmptyString;
     buildapi.opt_CommitterName := EmptyString;
     buildapi.opt_CommitterEmail := EmptyString |}.

Definition handler : binaryInstantiateHandler :=
  {| r := NewBinaryStorage; name := "app"; options := plain |}.

Definition payload : list byte := [x01; x02; x03].

(** A: the build runs, the stream succeeds. *)
Definition succeeds : Env :=
  mk_env (tag_missing 0) (reports BuildPhaseRunning EmptyString EmptyString) None (fun _ => None).

(** B: three polls find the tag missing, then the launch succeeds. *)
Definition tag_late : Env :=
  mk_env (tag_missing 3) (reports BuildPhaseRunning EmptyString EmptyString) None (fun _ => None).

(** C: the build fails on its own. *)
Definition build_fails : Env :=
  mk_env (tag_missing 0) (reports BuildPhaseFailed "BuildError" "exit status 1")
         None (fun _ => None).

(** D: the launch takes three retries, then the build never runs. *)
Definition never_runs : Env :=
  mk_env (tag_missing 3) ran_out None (fun _ => None).

(** E: the stream breaks; the first two updates conflict. *)
Definition stream_breaks : Env :=
  mk_env (tag_missing 0) (reports BuildPhaseRunning EmptyString EmptyString)
         (Some (GoError "connection reset"))
         (fun t => if (List.length t <? 11)%nat then Some conflict else None).

(** F: the generator rejects the request. *)
Definition launch_fails : Env :=
  mk_env (fun _ => inr (GoError "no such build config"))
         (reports BuildPhaseRunning EmptyString EmptyString) None (fun _ => None).

(** G: the build is still pending though the wait says [ok]. *)
Definition still_pending : Env :=
  mk_env (tag_missing 0) (reports BuildPhasePending EmptyString EmptyString) None (fun _ => None).

(** The start of every run of [handler]: validation, clock reading. *)
Definition entry : Trace :=
  [EvBeforeCreate (set_Name plain "app"); EvNow (1 * Second)].

Definition request : buildapi.BuildRequest :=
  binary_request handler (set_Name plain "app").

End Scenario.

(* ================================================================== *)
(** ** The connect entry points and further ways to read a run *)

(** [BinaryInstantiateREST.Connect], lines 117-125: the handler of one
    request (responder and context are collaborators of [Env]). *)
Definition Connect (r : BinaryInstantiateREST) (name : string)
    (options : buildapi.BinaryBuildRequestOptions) : binaryInstantiateHandler :=
  {| r := r; name := name; options := options |}.

(** [BinaryInstantiateREST.ConnectMethods], lines 133-135. *)
Definition ConnectMethods : list string := ["POST"].

Definition is_client_event (e : Event) : bool :=
  match e with
  | EvRESTClientFor => true
  | _ => false
  end.

Definition is_convert_event (e : Event) : bool :=
  match e with
  | EvConvert _ => true
  | _ => false
  end.

Definition is_validation_event (e : Event) : bool :=
  match e with
  | EvBeforeCreate _ => true
  | _ => false
  end.


(** The environment with another phase tracker. *)
Definition with_wait (env : Env)
    (wait : Trace -> string -> string -> Z -> WaitResult) : Env :=
  {| BeforeCreate := BeforeCreate env;
     BeforeCreateRequest := BeforeCreateRequest env;
     Now := Now env;
     InstantiateInternal := InstantiateInternal env;
     PollTicks := PollTicks env;
     WaitForRunningBuild := wait;
     RESTClientFor := RESTClientFor env;
     NewSPDYExecutor := NewSPDYExecutor env;
     Stream := Stream env;
     Convert := Convert env;
     UpdateBuild := UpdateBuild env;
     GetBuild := GetBuild env;
     GetBuildPodName := GetBuildPodName env;
     NoBuildLogsMessage := NoBuildLogsMessage env;
     BuildTriggerCauseManualMsg := BuildTriggerCauseManualMsg env |}.

(** The environment with other answers of the REST client and the executor
    constructors. *)
Definition with_client (env : Env)
    (client : Trace -> option error)
    (executor : Trace -> AttachRequest -> option error) : Env :=
  {| BeforeCreate := BeforeCreate env;
     BeforeCreateRequest := BeforeCreateRequest env;
     Now := Now env;
     InstantiateInternal := InstantiateInternal env;
     PollTicks := PollTicks env;
     WaitForRunningBuild := WaitForRunningBuild env;
     RESTClientFor := client;
     NewSPDYExecutor := executor;
     Stream := Stream env;
     Convert := Convert env;
     UpdateBuild := UpdateBuild env;
     GetBuild := GetBuild env;
     GetBuildPodName := GetBuildPodName env;
     NoBuildLogsMessage := NoBuildLogsMessage env;
     BuildTriggerCauseManualMsg := BuildTriggerCauseManualMsg env |}.


(** Further concrete runs. *)
Module Edge.

(** The image stream tag is missing: the generator answers every call with
    [errors.NewNotFound] for the resource "imagestreamtags". *)
Definition tag_not_found : Env :=
  Scenario.mk_env
    (fun _ => inr (NewNotFound "imagestreamtags" "app:latest"))
    (Scenario.reports BuildPhaseRunning EmptyString EmptyString)
    None (fun _ => None).

(** The REST client cannot be built. *)
Definition no_client : Env :=
  with_client Scenario.succeeds
              (fun _ => Some (GoError "no serializer")) (fun _ _ => None).

(** The executor cannot be built. *)
Definition no_executor : Env :=
  with_client Scenario.succeeds
              (fun _ => None) (fun _ _ => Some (GoError "bad TLS config")).

(** The build is deleted while the handler waits. *)
Definition deleted : Env :=
  with_wait Scenario.succeeds
    (fun _ _ _ _ => {| wr_latest := Scenario.snapshot "3" BuildPhaseNew EmptyString EmptyString;
                       wr_ok := false;
                       wr_err := Some ErrBuildDeleted |}).

(** The build has completed before the upload. *)
Definition completed : Env :=
  with_wait Scenario.succeeds
    (fun _ _ _ _ => Scenario.reports BuildPhaseComplete EmptyString EmptyString).

(** Validation rejects the options. *)
Definition invalid : Env :=
  {| BeforeCreate := fun _ => Some (GoError "invalid options");
     BeforeCreateRequest := fun _ => Some (GoError "invalid request");
     Now := Now Scenario.succeeds;
     InstantiateInternal := InstantiateInternal Scenario.succeeds;
     PollTicks := PollTicks Scenario.succeeds;
     WaitForRunningBuild := WaitForRunningBuild Scenario.succeeds;
     RESTClientFor := RESTClientFor Scenario.succeeds;
     NewSPDYExecutor := NewSPDYExecutor Scenario.succeeds;
     Stream := Stream Scenario.succeeds;
     Convert := Convert Scenario.succeeds;
     UpdateBuild := UpdateBuild Scenario.succeeds;
     GetBuild := GetBuild Scenario.succeeds;
     GetBuildPodName := GetBuildPodName Scenario.succeeds;
     NoBuildLogsMessage := NoBuildLogsMessage Scenario.succeeds;
     BuildTriggerCauseManualMsg := BuildTriggerCauseManualMsg Scenario.succeeds |}.

(** A request that arrives with an empty, non-nil list of causes. *)
Definition no_causes : buildapi.BuildRequest :=
  set_TriggeredBy Scenario.request (Some []).

End Edge.

(** What the retry loop of [cancelBuild] never does, on the events [l] it
    appends to the trace [t]:
    - it re-fetches only right after an update that the store answered with
      a conflict, and asks for the build of that update by name;
    - it makes no call after a re-fetch that failed;
    - it makes no call after an update that was accepted or that failed for
      another reason than a conflict. *)
Definition refetch_discipline (env : Env) (t l : Trace) : Prop :=
  (forall p name q,
      l = p ++ EvGetBuild name :: q ->
      exists p' u e,
        p = p' ++ [EvUpdateBuild u] /\ name = buildv1.Name u /\
        UpdateBuild env (t ++ p') u = Some e /\ IsConflict e = true) /\
  (forall p name q e,
      l = p ++ EvGetBuild name :: q ->
      GetBuild env (t ++ p) name = inr e -> q = []) /\
  (forall p u q,
      l = p ++ EvUpdateBuild u :: q ->
      (forall e, UpdateBuild env (t ++ p) u = Some e -> IsConflict e = false) ->
      q = []).

(* ================================================================== *)
(** ** Basic facts *)

Ltac run := unfold Since, time_Now, bind, call, ret in *; cbn [fst snd] in *.

Lemma handle_stages env h body t :
  handle env h body t =
  let (x, t1) := launch_stage env h t in
  match x with
  | Ok (b, rem) => guarded env h body b rem t1
  | Err e => (Err e, t1)
  | Panic => (Panic, t1)
  end.
Proof.
  unfold handle, launch_stage. run.
  destruct (BeforeCreate env _); [reflexivity|].
  destruct (Poll env Second _ _ _ _) as [[err build] t1].
  destruct err; [reflexivity|].
  destruct build; reflexivity.
Qed.

Section WaitForFacts.

Context {S : Type} (condition : S -> M (bool * option error * S)).

Lemma WaitFor_unfold ticks s t :
  WaitFor ticks condition s t =
  let '(done, err, s', t') := condition s t in
  match err with
  | Some e => (Some e, s', t')
  | None =>
      if done then (None, s', t')
      else match ticks with
           | O => (Some ErrWaitTimeout, s', t')
           | Datatypes.S n => WaitFor n condition s' t'
           end
  end.
Proof. destruct ticks; reflexivity. Qed.

(** A loop whose condition only appends events of a class only appends
    events of that class. *)
Lemma WaitFor_events (P : Event -> bool) :
  (forall s t, exists evs,
      snd (condition s t) = t ++ evs /\ forallb P evs = true) ->
  forall ticks s t, exists evs,
      snd (WaitFor ticks condition s t) = t ++ evs /\ forallb P evs = true.
Proof.
  intros Hc ticks. induction ticks as [|n IH]; intros s t;
    rewrite WaitFor_unfold;
    destruct (Hc s t) as [evs [Ht He]];
    destruct (condition s t) as [[[done err] s'] t']; cbn [snd] in Ht; subst t'.
  - destruct err; [|destruct done]; exists evs; auto.
  - destruct err; [|destruct done]; try (exists evs; auto; fail).
    destruct (IH s' (t ++ evs)) as [evs' [Ht' He']].
    exists (evs ++ evs'). rewrite Ht', <- app_assoc. split; auto.
    rewrite forallb_app, He, He'. reflexivity.
Qed.


End WaitForFacts.

(** Where a trace has a single event of a class, it splits around it in one
    way only. *)
Lemma split_at_unique (P : Event -> bool) (l1 l2 p q : Trace) (x y : Event) :
  l1 ++ x :: l2 = p ++ y :: q ->
  forallb (fun e => negb (P e)) l1 = true ->
  forallb (fun e => negb (P e)) l2 = true ->
  P x = true -> P y = true ->
  p = l1 /\ y = x /\ q = l2.
Proof.
  revert p. induction l1 as [|a l1 IH]; intros p H H1 H2 Hx Hy.
  - destruct p as [|b p]; cbn in H.
    + inversion H; subst; auto.
    + inversion H; subst. exfalso.
      rewrite forallb_app in H2. cbn in H2. rewrite Hy in H2.
      cbn in H2. rewrite andb_false_r in H2. discriminate.
  - cbn in H1. apply andb_true_iff in H1 as [Ha H1].
    destruct p as [|b p]; cbn in H.
    + inversion H; subst. rewrite Hy in Ha. discriminate.
    + inversion H; subst.
      destruct (IH p H4 H1 H2 Hx Hy) as [-> [-> ->]]. auto.
Qed.

Lemma forallb_impl (P Q : Event -> bool) (l : Trace) :
  (forall e, P e = true -> Q e = true) ->
  forallb P l = true -> forallb Q l = true.
Proof.
  intros HPQ H. rewrite forallb_forall in *. auto.
Qed.

Lemma existsb_none (P Q : Event -> bool) (l : Trace) :
  (forall e, P e = true -> Q e = false) ->
  forallb P l = true -> existsb Q l = false.
Proof.
  intros HPQ H. induction l as [|a l IH]; cbn in *; [reflexivity|].
  apply andb_true_iff in H as [Ha Hl]. rewrite (HPQ a Ha), (IH Hl). reflexivity.
Qed.

Section Facts.

Variable env : Env.

Lemma launch_cond_trace request build t :
  snd (launch_cond env request build t) = t ++ [EvInstantiateInternal request].
Proof.
  unfold launch_cond. run.
  destruct (InstantiateInternal env t request) as [b|e]; [reflexivity|].
  destruct (IsNotFound e); [|reflexivity].
  destruct (APIStatus e); [|reflexivity].
  destruct (Kind s =? "imagestreamtags")%string; reflexivity.
Qed.

(** What one run of the launch closure answers. *)
Lemma launch_cond_result request build t :
  fst (launch_cond env request build t) =
  match InstantiateInternal env t request with
  | inl result => (true, None, Some result)
  | inr err =>
      if image_stream_tag_not_found err then (false, None, build)
      else (false, Some err, build)
  end.
Proof.
  unfold launch_cond, image_stream_tag_not_found, IsNotFound, ReasonForError.
  run.
  destruct (InstantiateInternal env t request) as [b|e]; [reflexivity|].
  destruct (APIStatus e) as [s|]; cbn.
  - destruct (Reason s =? StatusReasonNotFound)%string; [|reflexivity].
    destruct (Kind s =? "imagestreamtags")%string; reflexivity.
  - reflexivity.
Qed.

Lemma launch_stage_events h t :
  exists evs, snd (launch_stage env h t) = t ++ evs /\
              forallb is_launch_event evs = true.
Proof.
  unfold launch_stage. run.
  destruct (BeforeCreate env _).
  { eexists; split; reflexivity. }
  unfold Poll.
  match goal with
  | |- context [WaitFor ?n ?c ?s0 ?t0] =>
      assert (Hc : forall s t, exists evs,
                 snd (c s t) = t ++ evs /\ forallb is_launch_event evs = true)
        by (intros s1 t1; eexists; split;
            [apply launch_cond_trace|reflexivity]);
      destruct (WaitFor_events c is_launch_event Hc n s0 t0) as [evs [Ht He]]
  end.
  match type of Ht with
  | snd ?w = _ => destruct w as [[err build] t1]
  end.
  cbn [snd] in Ht. subst t1.
  destruct err.
  { eexists. cbn [snd]. rewrite <- ?app_assoc. split; [reflexivity|].
    cbn. exact He. }
  destruct build.
  - eexists. cbn [snd]. rewrite <- !app_assoc. split; [reflexivity|].
    cbn. rewrite forallb_app, He. reflexivity.
  - eexists. cbn [snd]. rewrite <- !app_assoc. split; [reflexivity|].
    cbn. rewrite forallb_app, He. reflexivity.
Qed.

Lemma cancel_cond_trace vb t :
  exists evs, snd (cancel_cond env vb t) = t ++ evs /\
              forallb is_cancel_event evs = true /\
              (count is_update_event evs <= 1)%nat /\
              (count is_get_event evs <= 1)%nat.
Proof.
  unfold cancel_cond. run.
  destruct (UpdateBuild env t _) as [e|].
  - destruct (IsConflict e).
    + destruct (GetBuild env _ _); eexists; rewrite <- app_assoc;
        (split; [reflexivity|cbn; auto]).
    + eexists; split; [reflexivity|cbn; auto].
  - eexists; split; [reflexivity|cbn; auto].
Qed.

(** [cancelBuild] starts with the conversion and makes cancellation calls
    only. *)
Lemma cancelBuild_events build t :
  exists evs, snd (cancelBuild env build t) = t ++ EvConvert build :: evs /\
              forallb is_cancel_event evs = true.
Proof.
  unfold cancelBuild. run.
  destruct (Convert env t build) as [vb|e].
  - unfold Poll.
    match goal with
    | |- context [WaitFor ?n ?c ?s0 ?t0] =>
        assert (Hc : forall s t, exists evs,
                   snd (c s t) = t ++ evs /\ forallb is_cancel_event evs = true)
          by (intros s1 t1;
              destruct (cancel_cond_trace s1 t1) as [evs [H1 [H2 _]]]; eauto);
        destruct (WaitFor_events c is_cancel_event Hc n s0 t0) as [evs [Ht He]]
    end.
    match type of Ht with
    | snd ?w = _ => destruct w as [x t1]
    end.
    cbn [snd] in Ht. subst t1.
    eexists. rewrite <- !app_assoc. split; [reflexivity|]. cbn. exact He.
  - eexists. split; reflexivity.
Qed.

Lemma guarded_eq h body build remaining t :
  guarded env h body build remaining t =
  let '(res, cancel, t2) := wait_and_upload env h body build remaining t in
  (res, if cancel then snd (cancelBuild env build t2) else t2).
Proof.
  unfold guarded. run.
  destruct (wait_and_upload env h body build remaining t) as [[res cancel] t2].
  destruct cancel; [|reflexivity].
  destruct (cancelBuild env build t2); reflexivity.
Qed.

End Facts.

Section PhaseSwitch.

Variable env : Env.

Lemma upload_trace h body build latest t :
  exists upl, snd (upload env h body build latest t) = t ++ EvRESTClientFor :: upl /\
    forallb is_upload_event upl = true.
Proof.
  unfold upload. run.
  destruct (RESTClientFor env t); [eexists; split; reflexivity|].
  destruct (NewSPDYExecutor env _ _); [eexists; rewrite <- ?app_assoc; split; reflexivity|].
  destruct (Stream env _ _ _); eexists; rewrite <- ?app_assoc; split; reflexivity.
Qed.

Lemma wait_running h body build remaining t :
  let w := WaitForRunningBuild env t (buildapi.Namespace build)
             (buildapi.Name build) remaining in
  observed_running w = true ->
  wait_and_upload env h body build remaining t =
  upload env h body build (wr_latest w) (t ++ [wait_event build remaining]).
Proof.
  intros w. unfold observed_running, observed_phase, wait_and_upload. run.
  fold w. destruct (wr_err w); [discriminate|].
  destruct (wr_ok w); [|discriminate]. cbn [negb].
  intros H. apply String.eqb_eq in H. rewrite H. reflexivity.
Qed.

Lemma wait_not_running h body build remaining t :
  let w := WaitForRunningBuild env t (buildapi.Namespace build)
             (buildapi.Name build) remaining in
  observed_running w = false ->
  exists e,
    wait_and_upload env h body build remaining t =
    (Err e, negb (observed_terminal w), t ++ [wait_event build remaining]).
Proof.
  intros w. unfold observed_running, observed_terminal, observed_phase, wait_and_upload. run.
  fold w. destruct (wr_err w) as [e|].
  { intros _. destruct e; eexists; reflexivity. }
  destruct (wr_ok w); cbn [negb]; [|intros _; eexists; reflexivity].
  intros Hr. rewrite Hr. cbn [negb].
  destruct (_ =? BuildPhaseError)%string; [eexists; reflexivity|].
  destruct (_ =? BuildPhaseFailed)%string; [eexists; reflexivity|].
  destruct (_ =? BuildPhaseCancelled)%string; eexists; reflexivity.
Qed.

Lemma guarded_trace h body build remaining t :
  exists rest,
    snd (guarded env h body build remaining t) =
    t ++ wait_event build remaining :: rest /\
    forallb (fun e => is_upload_event e || is_cancel_event e) rest = true.
Proof.
  rewrite guarded_eq.
  set (w := WaitForRunningBuild env t (buildapi.Namespace build)
             (buildapi.Name build) remaining).
  destruct (observed_running w) eqn:Hr.
  - rewrite (wait_running h body build remaining t Hr). fold w.
    destruct (upload_trace h body build (wr_latest w) (t ++ [wait_event build remaining]))
      as [upl [Hu Hf]].
    destruct (upload env h body build (wr_latest w) _) as [[res cancel] t2].
    cbn [snd] in *. subst t2.
    assert (Hf' : forallb (fun e => is_upload_event e || is_cancel_event e) upl = true).
    { eapply forallb_impl; [|exact Hf]. intros e ->. reflexivity. }
    destruct cancel.
    + destruct (cancelBuild_events env build ((t ++ [wait_event build remaining]) ++ EvRESTClientFor :: upl))
        as [cevs [Hc Hcf]].
      rewrite Hc. rewrite <- !app_assoc. cbn [app].
      eexists. split; [reflexivity|].
      cbn. rewrite forallb_app, Hf'. cbn.
      eapply forallb_impl; [|exact Hcf]. intros e ->. apply orb_true_r.
    + rewrite <- !app_assoc. cbn [app]. eexists. split; [reflexivity|].
      cbn. exact Hf'.
  - destruct (wait_not_running h body build remaining t Hr) as [e He].
    rewrite He. fold w. destruct (observed_terminal w); cbn [negb snd].
    + exists []. split; reflexivity.
    + destruct (cancelBuild_events env build (t ++ [wait_event build remaining]))
        as [cevs [Hc Hcf]].
      rewrite Hc. rewrite <- !app_assoc. cbn [app].
      eexists. split; [reflexivity|]. cbn.
      eapply forallb_impl; [|exact Hcf]. intros e0 ->. apply orb_true_r.
Qed.

End PhaseSwitch.

Lemma observed_running_iff w :
  observed_running w = true <-> observed_phase w = Some BuildPhaseRunning.
Proof.
  unfold observed_running. destruct (observed_phase w) as [p|].
  - rewrite String.eqb_eq. split; congruence.
  - split; discriminate.
Qed.

Lemma running_not_terminal w :
  observed_running w = true -> observed_terminal w = false.
Proof.
  unfold observed_running, observed_terminal.
  destruct (observed_phase w); [|reflexivity].
  intros H. apply String.eqb_eq in H. subst. reflexivity.
Qed.

(** A run that reaches the phase wait has launched: it splits into the
    events of the launch stage, the wait, and the events of the guarded
    part. *)
Lemma reaches_wait env h body p ns n d q :
  snd (handle env h body []) = p ++ EvWaitForRunningBuild ns n d :: q ->
  exists b,
    launch_stage env h [] = (Ok (b, d), p) /\
    ns = buildapi.Namespace b /\ n = buildapi.Name b /\
    handle env h body [] = guarded env h body b d p /\
    forallb is_launch_event p = true /\
    forallb (fun e => is_upload_event e || is_cancel_event e) q = true.
Proof.
  intros H. rewrite handle_stages in *.
  destruct (launch_stage_events env h []) as [evs [Ht He]].
  destruct (launch_stage env h []) as [x t1]. cbn in Ht. subst t1.
  destruct x as [[b rem]|e|]; cbn [snd] in H.
  - destruct (guarded_trace env h body b rem evs) as [rest [Hg Hr]].
    rewrite Hg in H.
    apply split_at_unique with (P := is_wait_event) in H; try reflexivity.
    + destruct H as [-> [Hy ->]]. inversion Hy; subst.
      exists b. auto 10.
    + eapply forallb_impl; [|exact He]. intros e; destruct e; cbn; congruence.
    + eapply forallb_impl; [|exact Hr]. intros e; destruct e; cbn; congruence.
  - rewrite H, forallb_app in He. cbn in He. rewrite andb_false_r in He. discriminate.
  - rewrite H, forallb_app in He. cbn in He. rewrite andb_false_r in He. discriminate.
Qed.

(** What the guarded part does, by what the wait reports. *)
Lemma guarded_cases env h body b rem t :
  let w := WaitForRunningBuild env t (buildapi.Namespace b) (buildapi.Name b) rem in
  let t2 := t ++ [wait_event b rem] in
  if observed_running w then
    exists res cancel upl,
      upload env h body b (wr_latest w) t2 = (res, cancel, t2 ++ EvRESTClientFor :: upl) /\
      forallb is_upload_event upl = true /\
      guarded env h body b rem t =
      (res, if cancel then snd (cancelBuild env b (t2 ++ EvRESTClientFor :: upl))
            else t2 ++ EvRESTClientFor :: upl)
  else
    exists e,
      guarded env h body b rem t =
      (Err e, if observed_terminal w then t2 else snd (cancelBuild env b t2)).
Proof.
  intros w t2. rewrite guarded_eq.
  destruct (observed_running w) eqn:Hr.
  - rewrite (wait_running env h body b rem t Hr). fold w. fold t2.
    destruct (upload_trace env h body b (wr_latest w) t2) as [upl [Hu Hf]].
    destruct (upload env h body b (wr_latest w) t2) as [[res cancel] t3].
    cbn [snd] in Hu. subst t3. exists res, cancel, upl. auto.
  - destruct (wait_not_running env h body b rem t Hr) as [e He].
    rewrite He. fold w. fold t2. exists e.
    destruct (observed_terminal w); reflexivity.
Qed.

Ltac norm_trace H :=
  cbn [snd fst] in H; rewrite <- ?app_assoc in H; cbn [app] in H;
  apply app_inv_head in H; injection H as H.

(** The outcomes of the phase switch.  Take any run of [handle] that
    reaches the phase wait, and let [w] be what the wait returned.  The
    calls of the attach-and-stream section follow the wait if and only if
    the phase [w] reports is exactly Running, and the stream call is made
    only then.  When [w] reports Error, Failed or Cancelled the run ends
    with an error and makes no cancellation call at all.  For every other
    outcome that is not Running the run ends with an error and the
    cancellation is attempted. *)
Lemma phase_switch_outcomes env h body p ns n d q :
  snd (handle env h body []) = p ++ EvWaitForRunningBuild ns n d :: q ->
  let w := WaitForRunningBuild env p ns n d in
  let res := fst (handle env h body []) in
  (upload_attempted q = true <-> observed_phase w = Some BuildPhaseRunning) /\
  (stream_called q = true -> observed_phase w = Some BuildPhaseRunning) /\
  (observed_terminal w = true ->
     is_Err res = true /\ cancel_attempted (p ++ EvWaitForRunningBuild ns n d :: q) = false) /\
  (observed_running w = false -> observed_terminal w = false ->
     is_Err res = true /\ cancel_attempted q = true).
Proof.
  intros H w res.
  destruct (reaches_wait env h body p ns n d q H) as [b [Hl [-> [-> [Hh [Hp Hq]]]]]].
  subst res. rewrite Hh in *. clear Hh.
  pose proof (guarded_cases env h body b d p) as Hg. cbv zeta in Hg. fold w in Hg.
  rewrite <- observed_running_iff.
  cut ((upload_attempted q = true <-> observed_running w = true) /\
       (observed_terminal w = true ->
        is_Err (fst (guarded env h body b d p)) = true /\
        cancel_attempted
          (p ++ EvWaitForRunningBuild (buildapi.Namespace b) (buildapi.Name b) d :: q) =
        false) /\
       (observed_running w = false -> observed_terminal w = false ->
        is_Err (fst (guarded env h body b d p)) = true /\ cancel_attempted q = true)).
  { intros [H1 H23]. split; [exact H1|]. split; [|exact H23].
    intros Hs. apply H1. unfold stream_called, upload_attempted in *.
    apply existsb_exists in Hs as [e [Hin He]]. apply existsb_exists.
    exists e. split; [exact Hin|]. destruct e; try discriminate; reflexivity. }
  destruct (observed_running w) eqn:Hr.
  - destruct Hg as [r0 [cancel [upl [Hu [Hf Hg]]]]].
    rewrite Hg in H. 
    assert (Hq' : exists q', q = EvRESTClientFor :: q').
    { destruct cancel.
      - destruct (cancelBuild_events env b ((p ++ [wait_event b d]) ++ EvRESTClientFor :: upl)) as [c [Hc _]].
        rewrite Hc in H. norm_trace H. eauto.
      - norm_trace H. eauto. }
    destruct Hq' as [q' ->].
    split; [split; reflexivity|].
    rewrite (running_not_terminal w Hr). split; discriminate.
  - destruct Hg as [e Hg]. rewrite Hg in *. cbn [fst].
    split; [|split].
    + split; [|discriminate].
      destruct (observed_terminal w).
      * norm_trace H. subst q. discriminate.
      * destruct (cancelBuild_events env b (p ++ [wait_event b d])) as [c [Hc Hcf]].
        rewrite Hc in H. norm_trace H. subst q. cbn.
        intros Hu. exfalso.
        rewrite (existsb_none is_cancel_event is_upload_event) in Hu; [discriminate| |exact Hcf].
        intros e0; destruct e0; cbn; congruence.
    + intros Ht. rewrite Ht in H. split; [reflexivity|].
      norm_trace H. subst q. unfold cancel_attempted.
      rewrite existsb_app. cbn. rewrite orb_false_r.
      apply (existsb_none is_launch_event); [|exact Hp].
      intros e0; destruct e0; cbn; congruence.
    + intros _ Ht. rewrite Ht in H. split; [reflexivity|].
      destruct (cancelBuild_events env b (p ++ [wait_event b d])) as [c [Hc Hcf]].
      rewrite Hc in H. norm_trace H. subst q. reflexivity.
Qed.

Section Launch.

Variable env : Env.
Variable request : buildapi.BuildRequest.

(** As long as the generator answers with the retryable error and ticks are
    left, the loop goes on. *)
Lemma launch_loop_skip k : forall n build t,
  (k <= n)%nat ->
  (forall j, (j < k)%nat -> exists e,
      InstantiateInternal env (t ++ repeat (EvInstantiateInternal request) j) request = inr e /\
      image_stream_tag_not_found e = true) ->
  WaitFor n (launch_cond env request) build t =
  WaitFor (n - k) (launch_cond env request) build (t ++ repeat (EvInstantiateInternal request) k).
Proof.
  induction k as [|k IH]; intros n build t Hk Hj.
  - cbn. rewrite Nat.sub_0_r, app_nil_r. reflexivity.
  - rewrite IH by (try lia; intros; apply Hj; lia).
    destruct (Hj k) as [e [He Hr]]; [lia|].
    replace (n - k)%nat with (S (n - S k)) by lia.
    rewrite WaitFor_unfold.
    pose proof (launch_cond_result env request build (t ++ repeat (EvInstantiateInternal request) k)) as Hres.
    pose proof (launch_cond_trace env request build (t ++ repeat (EvInstantiateInternal request) k)) as Htr.
    destruct (launch_cond env request build (t ++ repeat (EvInstantiateInternal request) k)) as [[[done err] s'] t'].
    cbn [fst snd] in *. rewrite He, Hr in Hres. inversion Hres; subst.
    rewrite <- app_assoc. 
    replace (repeat (EvInstantiateInternal request) k ++ [EvInstantiateInternal request]) with (repeat (EvInstantiateInternal request) (S k)); [reflexivity|].
    cbn. apply repeat_cons.
  Qed.

(** One turn of the loop. *)
Lemma launch_loop_step n build t :
  WaitFor n (launch_cond env request) build t =
  match InstantiateInternal env t request with
  | inl result => (None, Some result, t ++ [EvInstantiateInternal request])
  | inr err =>
      if image_stream_tag_not_found err then
        match n with
        | O => (Some ErrWaitTimeout, build, t ++ [EvInstantiateInternal request])
        | S m => WaitFor m (launch_cond env request) build (t ++ [EvInstantiateInternal request])
        end
      else (Some err, build, t ++ [EvInstantiateInternal request])
  end.
Proof.
  rewrite WaitFor_unfold.
  pose proof (launch_cond_result env request build t) as Hres.
  pose proof (launch_cond_trace env request build t) as Htr.
  destruct (launch_cond env request build t) as [[[done err] s'] t'].
  cbn [fst snd] in *. subst t'.
  destruct (InstantiateInternal env t request) as [b|e].
  - inversion Hres; subst. reflexivity.
  - destruct (image_stream_tag_not_found e); inversion Hres; subst; reflexivity.
Qed.

End Launch.

Lemma repeat_snoc {A} (a : A) k : repeat a k ++ [a] = repeat a (S k).
Proof. cbn. symmetry. apply repeat_cons. Qed.

(** The launch loop polls the generator with
    [wait.Poll(time.Second, Timeout, ...)].  Call an error retryable when
    it passes the test of line 204, [image_stream_tag_not_found].  Suppose
    the first [k] answers were all retryable and the poller still delivers
    call number [k].  Then:
    - if that call fails with any other error (a not-found of another kind
      included), the loop stops there and [handle] returns that very error,
      after exactly [k + 1] calls;
    - if it succeeds, the loop stops there with the created build, after
      exactly [k + 1] calls, and the flow goes on with that build;
    - if it fails with a retryable error again, a further call is made as
      long as a tick is left, and with a non-zero timeout [handle] returns
      [ErrWaitTimeout] when none is.
    With a non-zero timeout the number of ticks is at most
    [Timeout / time.Second]. *)
Lemma launch_retry env h body k :
  let o := set_Name (options h) (name h) in
  let request := binary_request h o in
  let t0 := [EvBeforeCreate o; EvNow (Now env [EvBeforeCreate o])] in
  let ev := EvInstantiateInternal request in
  let attempt j := InstantiateInternal env (t0 ++ repeat ev j) request in
  let ticks := poll_ticks Second (Timeout (r h)) (PollTicks env t0) in
  BeforeCreate env o = None ->
  (k <= ticks)%nat ->
  (forall j, (j < k)%nat ->
     exists e, attempt j = inr e /\ image_stream_tag_not_found e = true) ->
  match attempt k with
  | inr e =>
      if image_stream_tag_not_found e then
        (Timeout (r h) <> 0 -> k = ticks ->
         handle env h body [] = (Err ErrWaitTimeout, t0 ++ repeat ev (S k))) /\
        ((k < ticks)%nat ->
         exists l, snd (launch_stage env h []) = t0 ++ repeat ev (S (S k)) ++ l)
      else handle env h body [] = (Err e, t0 ++ repeat ev (S k))
  | inl b =>
      let t1 := t0 ++ repeat ev (S k) in
      let remaining :=
        sub64 (Timeout (r h)) (sat64 (Now env t1 - Now env [EvBeforeCreate o])) in
      launch_stage env h [] = (Ok (b, remaining), t1 ++ [EvNow (Now env t1)]) /\
      handle env h body [] =
      guarded env h body b remaining (t1 ++ [EvNow (Now env t1)])
  end /\
  (Timeout (r h) <> 0 -> (ticks <= Z.to_nat (Timeout (r h) / Second))%nat).
Proof.
  intros o request t0 ev attempt ticks Hv Hk Hj.
  split.
  2:{ intros Hz. subst ticks. unfold poll_ticks.
      destruct (Z.eqb_spec (Timeout (r h)) 0); [contradiction|]. apply Nat.le_min_r. }
  assert (Hl : launch_stage env h [] =
     let '(err, build, t1) := WaitFor (ticks - k) (launch_cond env request) None (t0 ++ repeat ev k) in
     match err with
     | Some e => (Err e, t1)
     | None =>
         match build with
         | None => (Panic, t1 ++ [EvNow (Now env t1)])
         | Some b => (Ok (b, sub64 (Timeout (r h)) (sat64 (Now env t1 - Now env [EvBeforeCreate o]))),
                      t1 ++ [EvNow (Now env t1)])
         end
     end).
  { unfold launch_stage. run. fold o. rewrite Hv. cbn [app]. fold request. unfold Poll.
    fold t0. fold ticks.
    rewrite (launch_loop_skip env request k ticks None t0 Hk Hj).
    destruct (WaitFor (ticks - k) _ _ _) as [[err build] t1].
    destruct err; [reflexivity|]. destruct build; reflexivity. }
  rewrite handle_stages, Hl. clear Hl.
  rewrite launch_loop_step. fold ev. fold (attempt k).
  rewrite <- app_assoc, repeat_snoc.
  destruct (attempt k) as [b|e].
  - split; reflexivity.
  - destruct (image_stream_tag_not_found e).
    + split.
      * intros _ ->. rewrite Nat.sub_diag. reflexivity.
      * intros Hlt. replace (ticks - k)%nat with (S (ticks - S k)) by lia.
        rewrite launch_loop_step.
        rewrite <- app_assoc, repeat_snoc.
        destruct (InstantiateInternal env _ request) as [b'|e'].
        { eexists. cbn [snd]. rewrite <- app_assoc. reflexivity. }
        destruct (image_stream_tag_not_found e').
        2:{ exists []. cbn [snd]. rewrite app_nil_r. reflexivity. }
        destruct (ticks - S k)%nat as [|m].
        { exists []. cbn [snd]. rewrite app_nil_r. reflexivity. }
        match goal with
        | |- context [WaitFor ?n ?c ?s0 ?tt] =>
            assert (Hc : forall s t, exists evs,
                       snd (c s t) = t ++ evs /\ forallb is_launch_event evs = true)
              by (intros s1 t1; eexists; split;
                  [apply launch_cond_trace|reflexivity]);
            destruct (WaitFor_events c is_launch_event Hc n s0 tt) as [evs [Ht He]];
            destruct (WaitFor n c s0 tt) as [[err build] t1]
        end.
        cbn [snd] in Ht. subst t1.
        destruct err; [|destruct build]; cbn [snd]; rewrite <- ?app_assoc; eexists; reflexivity.
    + reflexivity.
Qed.

(** C2.  A not-found error whose resource kind is "imagestreamtags", as
    [errors.NewNotFound] builds it, is not retried by the launch loop.  The
    loop tests [Status().Kind] (line 204), the kind of the status object,
    which such an error leaves empty: the resource is in
    [Status().Details.Kind].  So whenever validation passes and the
    generator answers its first call with that error, [handle] returns the
    error after that single call, whatever the timeout and however many
    ticks the poller would still deliver. *)
Theorem image_stream_tag_error_not_retried env h body tag :
  let o := set_Name (options h) (name h) in
  let request := binary_request h o in
  let t0 := [EvBeforeCreate o; EvNow (Now env [EvBeforeCreate o])] in
  let e := NewNotFound "imagestreamtags" tag in
  BeforeCreate env o = None ->
  InstantiateInternal env t0 request = inr e ->
  IsNotFound e = true /\
  not_found_for "imagestreamtags" e = true /\
  image_stream_tag_not_found e = false /\
  handle env h body [] = (Err e, t0 ++ [EvInstantiateInternal request]).
Proof.
  intros o request t0 e Hv He.
  split; [reflexivity|]. split; [reflexivity|]. split; [reflexivity|].
  assert (Hk : (0 <= poll_ticks Second (Timeout (r h)) (PollTicks env t0))%nat) by lia.
  destruct (launch_retry env h body 0 Hv Hk) as [Hr _].
  { intros j Hj. lia. }
  cbn [repeat] in Hr. rewrite app_nil_r in Hr.
  fold o request t0 in Hr. rewrite He in Hr.
  exact Hr.
Qed.

Lemma no_split (P : Event -> bool) (X p q : Trace) (y : Event) :
  X = p ++ y :: q -> P y = true ->
  forallb (fun e => negb (P e)) X = true -> False.
Proof.
  intros -> Hy H. rewrite forallb_app in H. cbn in H. rewrite Hy in H.
  cbn in H. rewrite andb_false_r in H. discriminate.
Qed.

Lemma launch_not_stream l :
  forallb is_launch_event l = true ->
  forallb (fun e => negb (is_stream_event e)) l = true.
Proof. apply forallb_impl. intros e; destruct e; cbn; congruence. Qed.

Lemma cancel_not_stream l :
  forallb is_cancel_event l = true ->
  forallb (fun e => negb (is_stream_event e)) l = true.
Proof. apply forallb_impl. intros e; destruct e; cbn; congruence. Qed.

Lemma launch_not_cancel l :
  forallb is_launch_event l = true -> cancel_attempted l = false.
Proof. apply existsb_none. intros e; destruct e; cbn; congruence. Qed.

Ltac inv_upload Hu :=
  let Hr0 := fresh "Hr0" in let Hc0 := fresh "Hc0" in let Ht0 := fresh "Ht0" in
  injection Hu as Hr0 Hc0 Ht0; rewrite <- ?app_assoc in Ht0;
  apply app_inv_head in Ht0; cbn [app] in Ht0; injection Ht0 as Ht0;
  subst.

Ltac no_stream_in H :=
  exfalso; apply (no_split is_stream_event _ _ _ _ H); [reflexivity|];
  rewrite ?forallb_app; cbn;
  rewrite ?launch_not_stream, ?cancel_not_stream by assumption; reflexivity.

Lemma upload_cases env h body b latest t :
  let req := attach_request env b in
  let t1 := t ++ [EvRESTClientFor] in
  let t2 := t ++ [EvRESTClientFor; EvNewSPDYExecutor req] in
  let t3 := t ++ [EvRESTClientFor; EvNewSPDYExecutor req; EvStream req body] in
  upload env h body b latest t =
  match RESTClientFor env t with
  | Some err => (Err err, true, t1)
  | None =>
      match NewSPDYExecutor env t1 req with
      | Some err => (Err err, true, t2)
      | None =>
          match Stream env t2 req body with
          | Some err => (Err (NewInternalError err), true, t3)
          | None => (Ok latest, false, t3)
          end
      end
  end.
Proof.
  unfold upload. run. fold (attach_request env b).
  destruct (RESTClientFor env t); [reflexivity|].
  destruct (NewSPDYExecutor env _ _); rewrite <- ?app_assoc; [reflexivity|].
  cbn [app].
  destruct (Stream env _ _ _); rewrite <- ?app_assoc; reflexivity.
Qed.

(** A run in which the stream call is made: where the call sits and how the
    run ends. *)
Lemma reaches_stream env h body p a stdin q :
  snd (handle env h body []) = p ++ EvStream a stdin :: q ->
  exists b d p0,
    launch_stage env h [] = (Ok (b, d), p0) /\
    forallb is_launch_event p0 = true /\
    p = p0 ++ [wait_event b d; EvRESTClientFor; EvNewSPDYExecutor a] /\
    a = attach_request env b /\ stdin = body /\
    let w := WaitForRunningBuild env p0 (buildapi.Namespace b) (buildapi.Name b) d in
    observed_running w = true /\
    handle env h body [] =
    match Stream env p a stdin with
    | Some err => (Err (NewInternalError err),
                   snd (cancelBuild env b (p ++ [EvStream a stdin])))
    | None => (Ok (wr_latest w), p ++ [EvStream a stdin])
    end.
Proof.
  intros H. rewrite handle_stages in *.
  destruct (launch_stage_events env h []) as [evs [Ht He]].
  destruct (launch_stage env h []) as [x t1]. cbn in Ht. subst t1.
  destruct x as [[b rem]|e|]; cbn [snd] in H.
  2,3: no_stream_in H.
  pose proof (guarded_cases env h body b rem evs) as Hg. cbv zeta in Hg.
  set (w := WaitForRunningBuild env evs _ _ rem) in *.
  destruct (observed_running w) eqn:Hr.
  - destruct Hg as [r0 [cancel [upl [Hu [Hf Hg]]]]].
    rewrite upload_cases in Hu. cbv zeta in Hu.
    destruct (RESTClientFor env _).
    { exfalso. inv_upload Hu. rewrite Hg in H. cbn [snd] in H.
      match type of H with snd (cancelBuild _ _ ?t) = _ =>
        destruct (cancelBuild_events env b t) as [c [Hc Hcf]] end.
      rewrite Hc in H. no_stream_in H. }
    destruct (NewSPDYExecutor env _ _).
    { exfalso. inv_upload Hu. rewrite Hg in H. cbn [snd] in H.
      match type of H with snd (cancelBuild _ _ ?t) = _ =>
        destruct (cancelBuild_events env b t) as [c [Hc Hcf]] end.
      rewrite Hc in H. no_stream_in H. }
    assert (Hup : upl = [EvNewSPDYExecutor (attach_request env b); EvStream (attach_request env b) body]).
    { destruct (Stream env _ _ _); injection Hu as _ _ Ht0;
        rewrite <- ?app_assoc in Ht0; apply app_inv_head in Ht0;
        cbn [app] in Ht0; injection Ht0 as Ht0; symmetry; exact Ht0. }
    subst upl.
    assert (Hsplit : p = evs ++ [wait_event b rem; EvRESTClientFor; EvNewSPDYExecutor (attach_request env b)]
                     /\ EvStream a stdin = EvStream (attach_request env b) body).
    { rewrite Hg in H. cbn [snd] in H. destruct cancel.
      - match type of H with snd (cancelBuild _ _ ?t) = _ =>
          destruct (cancelBuild_events env b t) as [c [Hc Hcf]] end.
        rewrite Hc in H. rewrite <- !app_assoc in H. cbn [app] in H.
        change (evs ++ wait_event b rem :: EvRESTClientFor :: EvNewSPDYExecutor (attach_request env b)
                 :: EvStream (attach_request env b) body :: EvConvert b :: c)
          with (evs ++ [wait_event b rem; EvRESTClientFor] ++ [EvNewSPDYExecutor (attach_request env b)]
                 ++ EvStream (attach_request env b) body :: EvConvert b :: c) in H.
        rewrite !app_assoc in H.
        apply split_at_unique with (P := is_stream_event) in H; try reflexivity.
        + destruct H as [-> [-> _]]. rewrite <- !app_assoc. auto.
        + rewrite !forallb_app. cbn. rewrite launch_not_stream; auto.
        + cbn. apply cancel_not_stream; auto.
      - rewrite <- !app_assoc in H. cbn [app] in H.
        change (evs ++ wait_event b rem :: EvRESTClientFor :: EvNewSPDYExecutor (attach_request env b)
                 :: [EvStream (attach_request env b) body])
          with (evs ++ [wait_event b rem; EvRESTClientFor] ++ [EvNewSPDYExecutor (attach_request env b)]
                 ++ EvStream (attach_request env b) body :: []) in H.
        rewrite !app_assoc in H.
        apply split_at_unique with (P := is_stream_event) in H; try reflexivity.
        + destruct H as [-> [-> _]]. rewrite <- !app_assoc. auto.
        + rewrite !forallb_app. cbn. rewrite launch_not_stream; auto. }
    destruct Hsplit as [-> Hev]. inversion Hev; subst a stdin.
    exists b, rem, evs. repeat split; auto.
    rewrite Hg.
    replace ((evs ++ [wait_event b rem]) ++ [EvRESTClientFor; EvNewSPDYExecutor (attach_request env b)])
      with (evs ++ [wait_event b rem; EvRESTClientFor; EvNewSPDYExecutor (attach_request env b)]) in Hu
      by (rewrite <- app_assoc; reflexivity).
    replace ((evs ++ [wait_event b rem]) ++ EvRESTClientFor :: [EvNewSPDYExecutor (attach_request env b); EvStream (attach_request env b) body])
      with ((evs ++ [wait_event b rem; EvRESTClientFor; EvNewSPDYExecutor (attach_request env b)]) ++ [EvStream (attach_request env b) body])
      by (rewrite <- !app_assoc; reflexivity).
    destruct (Stream env _ _ _); inversion Hu; subst; reflexivity.
  - exfalso. destruct Hg as [e Hg]. rewrite Hg in H. cbn [snd] in H.
    destruct (observed_terminal w).
    + no_stream_in H.
    + destruct (cancelBuild_events env b (evs ++ [wait_event b rem])) as [c [Hc Hcf]].
      rewrite Hc in H. no_stream_in H.
Qed.

(** The answers of the cancellation calls have no part in what [handle]
    returns. *)
Lemma handle_result_cleanup env convert update get h body t :
  fst (handle (with_cleanup env convert update get) h body t) =
  fst (handle env h body t).
Proof.
  rewrite !handle_stages.
  change (launch_stage (with_cleanup env convert update get) h t)
    with (launch_stage env h t).
  destruct (launch_stage env h t) as [x t1].
  destruct x as [[b rem]|e|]; try reflexivity.
  rewrite !guarded_eq.
  change (wait_and_upload (with_cleanup env convert update get) h body b rem t1)
    with (wait_and_upload env h body b rem t1).
  destruct (wait_and_upload env h body b rem t1) as [[res cancel] t2].
  reflexivity.
Qed.

Lemma ServeHTTP_trace env h body t :
  snd (ServeHTTP env h body t) =
  snd (handle env h body t) ++
  match fst (handle env h body t) with
  | Ok build => [EvRespondObject StatusCreated build; EvBodyClose]
  | Err err => [EvRespondError err; EvBodyClose]
  | Panic => [EvBodyClose]
  end.
Proof.
  unfold ServeHTTP. run.
  destruct (handle env h body t) as [res t1].
  destruct res; cbn [fst snd]; rewrite <- ?app_assoc; reflexivity.
Qed.

(** C3.  Whenever the stream call of a run fails with [e], [handle]
    returns [NewInternalError e], an error of the internal-error class; the
    deferred cancellation is attempted on that exit; whatever the conversion,
    the updates and the re-fetches of that cancellation answer, the returned
    error is the same; and [ServeHTTP] hands that error to the responder. *)
Theorem streaming_error_returned env h body p a stdin q e :
  snd (handle env h body []) = p ++ EvStream a stdin :: q ->
  Stream env p a stdin = Some e ->
  fst (handle env h body []) = Err (NewInternalError e) /\
  ReasonForError (NewInternalError e) = StatusReasonInternalError /\
  cancel_attempted q = true /\
  (forall convert update get,
     fst (handle (with_cleanup env convert update get) h body []) =
     Err (NewInternalError e)) /\
  snd (ServeHTTP env h body []) =
  p ++ EvStream a stdin :: q ++ [EvRespondError (NewInternalError e); EvBodyClose].
Proof.
  intros H Hs.
  destruct (reaches_stream env h body p a stdin q H)
    as [b [d [p0 [Hl [Hp0 [Hp [Ha [Hb [Hr Hh]]]]]]]]].
  rewrite Hs in Hh.
  assert (Hres : fst (handle env h body []) = Err (NewInternalError e))
    by (rewrite Hh; reflexivity).
  split; [exact Hres|]. split; [reflexivity|]. split; [|split].
  - rewrite Hh in H. cbn [snd] in H.
    destruct (cancelBuild_events env b (p ++ [EvStream a stdin])) as [c [Hc _]].
    rewrite Hc in H. rewrite <- app_assoc in H. apply app_inv_head in H.
    cbn [app] in H. injection H as H. subst q. reflexivity.
  - intros. rewrite handle_result_cleanup. exact Hres.
  - rewrite ServeHTTP_trace, Hres, H, <- app_assoc. reflexivity.
Qed.

(** C9.  Whenever the stream call of a run succeeds, the run makes no
    cancellation call, [handle] returns the snapshot the phase wait handed
    back, nothing follows the stream call, and [ServeHTTP] responds with
    that snapshot and status 201 Created. *)
Theorem streaming_success env h body p a stdin q :
  snd (handle env h body []) = p ++ EvStream a stdin :: q ->
  Stream env p a stdin = None ->
  exists p0 ns n d,
    p = p0 ++ [EvWaitForRunningBuild ns n d; EvRESTClientFor; EvNewSPDYExecutor a] /\
    let latest := wr_latest (WaitForRunningBuild env p0 ns n d) in
    fst (handle env h body []) = Ok latest /\
    q = [] /\
    cancel_attempted (snd (handle env h body [])) = false /\
    ServeHTTP env h body [] =
    (tt, p ++ [EvStream a stdin; EvRespondObject 201 latest; EvBodyClose]).
Proof.
  intros H Hs.
  destruct (reaches_stream env h body p a stdin q H)
    as [b [d [p0 [Hl [Hp0 [Hp [Ha [Hb [Hr Hh]]]]]]]]].
  rewrite Hs in Hh.
  exists p0, (buildapi.Namespace b), (buildapi.Name b), d.
  split; [exact Hp|]. cbv zeta.
  assert (Hq : q = []).
  { rewrite Hh in H. cbn [snd] in H. apply app_inv_head in H.
    injection H as H. auto. }
  split; [rewrite Hh; reflexivity|]. split; [exact Hq|]. split.
  - rewrite Hh. cbn [snd]. rewrite Hp. unfold cancel_attempted.
    rewrite !existsb_app. fold (cancel_attempted p0).
    rewrite launch_not_cancel by assumption. reflexivity.
  - pose proof (ServeHTTP_trace env h body []) as Ht.
    destruct (ServeHTTP env h body []) as [[] tr]. cbn [snd] in Ht.
    rewrite Ht, Hh. cbn [fst snd]. rewrite <- app_assoc. reflexivity.
Qed.

(** The launch loop makes at least one call and at most one per tick and one
    more, all with the same request. *)
Lemma launch_loop_trace env request n : forall build t,
  exists k, (k <= n)%nat /\
    snd (WaitFor n (launch_cond env request) build t) =
    t ++ repeat (EvInstantiateInternal request) (S k).
Proof.
  induction n as [|n IH]; intros build t; rewrite launch_loop_step.
  - exists 0%nat. split; [lia|].
    destruct (InstantiateInternal env t request) as [b|e]; [reflexivity|].
    destruct (image_stream_tag_not_found e); reflexivity.
  - destruct (InstantiateInternal env t request) as [b|e].
    { exists 0%nat. split; [lia|reflexivity]. }
    destruct (image_stream_tag_not_found e).
    2:{ exists 0%nat. split; [lia|reflexivity]. }
    destruct (IH build (t ++ [EvInstantiateInternal request])) as [k [Hk Ht]].
    exists (S k). split; [lia|]. rewrite Ht, <- app_assoc. reflexivity.
Qed.

(** The trace of the launch stage. *)
Lemma launch_stage_shape env h :
  let o := set_Name (options h) (name h) in
  let request := binary_request h o in
  let t0 := Now env [EvBeforeCreate o] in
  match launch_stage env h [] with
  | (Ok (b, d), p) =>
      exists k,
        let l := EvBeforeCreate o :: EvNow t0 ::
                 repeat (EvInstantiateInternal request) (S k) in
        p = l ++ [EvNow (Now env l)] /\
        d = sub64 (Timeout (r h)) (sat64 (Now env l - t0))
  | (Err e, p) =>
      p = [EvBeforeCreate o] \/
      exists k, p = EvBeforeCreate o :: EvNow t0 ::
                    repeat (EvInstantiateInternal request) (S k)
  | (Panic, p) => False
  end.
Proof.
  intros o request t0. unfold launch_stage. run. fold o.
  destruct (BeforeCreate env o); [left; reflexivity|].
  cbn [app]. fold t0. fold request. unfold Poll.
  set (n := poll_ticks _ _ _).
  set (t := [EvBeforeCreate o; EvNow t0]).
  destruct (launch_loop_trace env request n None t) as [k [Hk Ht]].
  assert (Hb : forall m build tt, fst (WaitFor m (launch_cond env request) build tt) = (None, None) -> False).
  { induction m as [|m IHm]; intros build tt; rewrite launch_loop_step;
      destruct (InstantiateInternal env tt request) as [b|e]; try discriminate;
      destruct (image_stream_tag_not_found e); try discriminate. apply IHm. }
  pose proof (Hb n None t) as Hn.
  destruct (WaitFor n (launch_cond env request) None t) as [[err build] t1].
  cbn [snd fst] in *. subst t1.
  destruct err.
  - right. exists k. reflexivity.
  - destruct build; [|apply Hn; reflexivity].
    exists k. split; reflexivity.
Qed.

Lemma sub64_exact T x :
  0 <= T <= maxDuration -> 0 <= x <= maxDuration ->
  sub64 T (sat64 x) = T - x.
Proof.
  unfold sub64, sat64, wrap64, maxDuration, minDuration. intros HT Hx.
  rewrite Z.min_l by lia. rewrite Z.max_r by lia.
  rewrite Z.mod_small by lia. lia.
Qed.

(** C8.  Shared deadline.  In any run that reaches the phase wait, the
    clock is read once before the first instantiation call ([t0]) and once
    after the last one ([t1]), and the timeout handed to the wait is
    [Timeout - (t1 - t0)] in int64 arithmetic; for a non-negative timeout
    and a clock that did not run backwards this is exactly the configured
    timeout minus the time the launch loop took. *)
Theorem wait_receives_remainder env h body p ns n d q :
  snd (handle env h body []) = p ++ EvWaitForRunningBuild ns n d :: q ->
  exists t0 k t1,
    p = EvBeforeCreate (set_Name (options h) (name h)) :: EvNow t0 ::
        repeat (EvInstantiateInternal
                  (binary_request h (set_Name (options h) (name h)))) (S k) ++
        [EvNow t1] /\
    d = sub64 (Timeout (r h)) (sat64 (t1 - t0)) /\
    (0 <= Timeout (r h) <= maxDuration -> 0 <= t1 - t0 <= maxDuration ->
     d = Timeout (r h) - (t1 - t0)).
Proof.
  intros H.
  destruct (reaches_wait env h body p ns n d q H) as [b [Hl _]].
  pose proof (launch_stage_shape env h) as Hs. cbv zeta in Hs.
  rewrite Hl in Hs. destruct Hs as [k [Hp Hd]].
  eexists _, k, _. split; [exact Hp|]. split; [exact Hd|].
  intros HT Hx. rewrite Hd. apply sub64_exact; assumption.
Qed.

(** C7, as amended.  When the phase wait comes back without reaching
    Running and without an error, [handle] returns a timeout-class error
    whose message names the configured overall timeout [h.r.Timeout]
    (whatever share of it the wait itself was given), and no call of the
    attach-and-stream section is made in that run. *)
Theorem wait_timeout_names_configured_timeout env h body p ns n d q :
  snd (handle env h body []) = p ++ EvWaitForRunningBuild ns n d :: q ->
  timed_out (WaitForRunningBuild env p ns n d) = true ->
  fst (handle env h body []) =
  Err (NewTimeoutError
         (Sprintf "timed out waiting for build %s to start after %s"
                  [AString n; ADuration (Timeout (r h))]) 0) /\
  ReasonForError
    (NewTimeoutError
         (Sprintf "timed out waiting for build %s to start after %s"
                  [AString n; ADuration (Timeout (r h))]) 0) = StatusReasonTimeout /\
  upload_attempted (snd (handle env h body [])) = false.
Proof.
  intros H Ht.
  destruct (reaches_wait env h body p ns n d q H) as [b [Hl [-> [-> [Hh [Hp Hq]]]]]].
  assert (Hw : wait_and_upload env h body b d p =
               (Err (NewTimeoutError
                  (Sprintf "timed out waiting for build %s to start after %s"
                  [AString (buildapi.Name b); ADuration (Timeout (r h))]) 0), true,
                p ++ [wait_event b d])).
  { unfold wait_and_upload. run. unfold timed_out in Ht.
    destruct (wr_err (WaitForRunningBuild env p _ _ d)); [discriminate|].
    rewrite Ht. reflexivity. }
  rewrite Hh, guarded_eq, Hw. cbn [fst snd].
  split; [reflexivity|]. split; [reflexivity|].
  destruct (cancelBuild_events env b (p ++ [wait_event b d])) as [c [Hc Hcf]].
  rewrite Hc. unfold upload_attempted. rewrite !existsb_app. cbn.
  rewrite (existsb_none is_launch_event is_upload_event p) by
    (auto; intros e; destruct e; cbn; congruence).
  apply (existsb_none is_cancel_event is_upload_event); auto.
  intros e; destruct e; cbn; congruence.
Qed.

Lemma wait_and_upload_trace env h body b rem t :
  exists upl,
    snd (wait_and_upload env h body b rem t) = t ++ wait_event b rem :: upl /\
    forallb is_upload_event upl = true.
Proof.
  set (w := WaitForRunningBuild env t (buildapi.Namespace b) (buildapi.Name b) rem).
  destruct (observed_running w) eqn:Hr.
  - rewrite (wait_running env h body b rem t Hr).
    destruct (upload_trace env h body b (wr_latest w) (t ++ [wait_event b rem]))
      as [upl [Hu Hf]].
    fold w. rewrite Hu, <- app_assoc. exists (EvRESTClientFor :: upl).
    split; [reflexivity|exact Hf].
  - destruct (wait_not_running env h body b rem t Hr) as [e He].
    rewrite He. exists []. cbn [snd]. split; reflexivity.
Qed.

(** C5, as amended.  The cancellation guard exists only once the launch
    has succeeded.  When validation or launch fails, [handle] returns that
    error and the run holds no cancellation call.  When the launch succeeds,
    no cancellation call has been made up to the end of the wait-and-upload
    part, and [cancelBuild] then runs on the launched build exactly when the
    flag [cancel] is still set on exit.  [handle] never panics. *)
Theorem guard_armed_after_launch env h body :
  match launch_stage env h [] with
  | (Ok (b, remaining), t1) =>
      cancel_attempted t1 = false /\
      let '(res, cancel, t2) := wait_and_upload env h body b remaining t1 in
      cancel_attempted t2 = false /\
      if cancel then
        exists c, handle env h body [] = (res, t2 ++ EvConvert b :: c)
      else handle env h body [] = (res, t2)
  | (Err e, t1) =>
      handle env h body [] = (Err e, t1) /\ cancel_attempted t1 = false
  | (Panic, _) => False
  end.
Proof.
  pose proof (handle_stages env h body []) as Hs.
  pose proof (launch_stage_shape env h) as Hsh. cbv zeta in Hsh.
  destruct (launch_stage_events env h []) as [evs [Ht He]].
  destruct (launch_stage env h []) as [x t1]. cbn in Ht. subst t1.
  destruct x as [[b rem]|e|]; cbv beta iota zeta in Hs.
  - split; [apply launch_not_cancel; exact He|].
    rewrite guarded_eq in Hs.
    destruct (wait_and_upload_trace env h body b rem evs) as [upl [Hu Hf]].
    destruct (wait_and_upload env h body b rem evs) as [[res cancel] t2].
    cbn [snd] in Hu. subst t2. split.
    + unfold cancel_attempted. rewrite existsb_app. cbn.
      fold (cancel_attempted evs). rewrite launch_not_cancel by exact He.
      apply (existsb_none is_upload_event); auto.
      intros e; destruct e; cbn; congruence.
    + destruct cancel; [|exact Hs].
      destruct (cancelBuild_events env b (evs ++ wait_event b rem :: upl)) as [c [Hc _]].
      exists c. rewrite Hs, Hc. reflexivity.
  - split; [exact Hs|]. apply launch_not_cancel; exact He.
  - exact Hsh.
Qed.

Lemma In_class (P : Event -> bool) (l : Trace) (e : Event) :
  forallb P l = true -> In e l -> P e = true.
Proof. intros H. rewrite forallb_forall in H. auto. Qed.

(** Every instantiation call of a binary upload carries the request built
    from the options. *)
Lemma handle_instantiates env h body req :
  In (EvInstantiateInternal req) (snd (handle env h body [])) ->
  req = binary_request h (set_Name (options h) (name h)).
Proof.
  intros Hin. rewrite handle_stages in Hin.
  pose proof (launch_stage_shape env h) as Hs. cbv zeta in Hs.
  assert (Hrep : forall k t0 l,
    In (EvInstantiateInternal req)
       (EvBeforeCreate (set_Name (options h) (name h)) :: EvNow t0 ::
        repeat (EvInstantiateInternal (binary_request h (set_Name (options h) (name h)))) k ++ l) ->
    (forall e, In e l -> is_instantiate_event e = false) ->
    req = binary_request h (set_Name (options h) (name h))).
  { intros k t0 l [Hx|[Hx|Hx]] Hl; try discriminate.
    apply in_app_or in Hx as [Hx|Hx].
    - apply repeat_spec in Hx. congruence.
    - apply Hl in Hx. discriminate. }
  destruct (launch_stage env h []) as [x p].
  destruct x as [[b d]|e|]; cbn [snd] in Hin.
  - destruct Hs as [k [Hp Hd]].
    destruct (guarded_trace env h body b d p) as [rest [Hg Hr]].
    rewrite Hg, Hp in Hin. cbn [app] in Hin. rewrite <- !app_assoc in Hin.
    apply (Hrep _ _ _ Hin).
    intros e [<-|[<-|He]]; try reflexivity.
    apply (In_class _ _ _ Hr) in He. destruct e; try reflexivity; discriminate.
  - destruct Hs as [->|[k ->]].
    + destruct Hin as [Hx|[]]. discriminate.
    + apply (Hrep (S k) (Now env [EvBeforeCreate (set_Name (options h) (name h))]) []);
        [rewrite app_nil_r; exact Hin|]. intros e0 [].
  - contradiction.
Qed.

Lemma commit_length (s : string) : (0 <? String.length s)%nat = true <-> s <> EmptyString.
Proof.
  destruct s; cbn; split; intros; congruence.
Qed.

Lemma binary_request_revision h :
  buildapi.req_Revision (binary_request h (set_Name (options h) (name h))) =
  if (0 <? String.length (buildapi.opt_Commit (options h)))%nat then
    Some {| buildapi.Git := Some
      {| buildapi.git_Commit := buildapi.opt_Commit (options h);
         buildapi.git_Author :=
           {| buildapi.user_Name := buildapi.opt_AuthorName (options h);
              buildapi.user_Email := buildapi.opt_AuthorEmail (options h) |};
         buildapi.git_Committer :=
           {| buildapi.user_Name := buildapi.opt_CommitterName (options h);
              buildapi.user_Email := buildapi.opt_CommitterEmail (options h) |};
         buildapi.git_Message := buildapi.opt_Message (options h) |} |}
  else None.
Proof. reflexivity. Qed.

(** C10.  [InstantiateREST.Create] turns a nil trigger-cause list into the
    single manual-trigger cause before it calls the generator: the request
    the generator receives has as its [TriggeredBy] field the one-element
    list holding the manual cause, and its name, revision and binary source
    are those of the incoming request.  Every
    request the binary path hands to the generator has no trigger cause, and
    has a source revision if and only if the commit option is non-empty: the
    revision then carries commit, author, committer and message of the
    options, and with an empty commit there is none, whatever the other
    options hold. *)
Theorem trigger_cause_and_revision env :
  (forall obj createValidation,
     buildapi.req_TriggeredBy obj = None ->
     BeforeCreateRequest env obj = None ->
     createValidation obj = None ->
     let request :=
       set_TriggeredBy obj
         (Some [{| buildapi.cause_Message := BuildTriggerCauseManualMsg env |}]) in
     let t := [EvBeforeCreateRequest obj; EvCreateValidation obj] in
     Create env obj createValidation [] =
     (InstantiateInternal env t request, t ++ [EvInstantiateInternal request]) /\
     (forall sent,
        In (EvInstantiateInternal sent) (snd (Create env obj createValidation [])) ->
        buildapi.req_TriggeredBy sent =
        Some [{| buildapi.cause_Message := BuildTriggerCauseManualMsg env |}] /\
        buildapi.req_Name sent = buildapi.req_Name obj /\
        buildapi.req_Revision sent = buildapi.req_Revision obj /\
        buildapi.req_Binary sent = buildapi.req_Binary obj)) /\
  (forall h body req,
     In (EvInstantiateInternal req) (snd (handle env h body [])) ->
     buildapi.req_TriggeredBy req = None /\
     (buildapi.req_Revision req <> None <-> buildapi.opt_Commit (options h) <> EmptyString) /\
     (buildapi.opt_Commit (options h) <> EmptyString ->
      buildapi.req_Revision req =
      Some {| buildapi.Git := Some
        {| buildapi.git_Commit := buildapi.opt_Commit (options h);
           buildapi.git_Author :=
             {| buildapi.user_Name := buildapi.opt_AuthorName (options h);
                buildapi.user_Email := buildapi.opt_AuthorEmail (options h) |};
           buildapi.git_Committer :=
             {| buildapi.user_Name := buildapi.opt_CommitterName (options h);
                buildapi.user_Email := buildapi.opt_CommitterEmail (options h) |};
           buildapi.git_Message := buildapi.opt_Message (options h) |} |}) /\
     (buildapi.opt_Commit (options h) = EmptyString -> buildapi.req_Revision req = None)).
Proof.
  split.
  - intros obj cv Ht Hb Hv request t.
    assert (HC : Create env obj cv [] =
                 (InstantiateInternal env t request, t ++ [EvInstantiateInternal request])).
    { unfold Create. run. rewrite Hb, Hv, Ht. reflexivity. }
    split; [exact HC|].
    intros sent Hin. rewrite HC in Hin. cbn [snd t app] in Hin.
    destruct Hin as [Hx|[Hx|[Hx|[]]]]; try discriminate.
    injection Hx as <-. repeat split.
  - intros h body req Hin. apply handle_instantiates in Hin. subst req.
    rewrite binary_request_revision. cbn [buildapi.req_TriggeredBy binary_request].
    pose proof (commit_length (buildapi.opt_Commit (options h))) as Hc.
    destruct (0 <? String.length (buildapi.opt_Commit (options h)))%nat; cbv iota.
    + assert (Hne : buildapi.opt_Commit (options h) <> EmptyString) by (apply Hc; reflexivity).
      split; [reflexivity|]. split; [split; [intros _; exact Hne|intros _ Hx; discriminate Hx]|].
      split; [reflexivity|contradiction].
    + assert (He : buildapi.opt_Commit (options h) = EmptyString).
      { destruct (string_dec (buildapi.opt_Commit (options h)) EmptyString) as [E|E]; [exact E|].
        apply Hc in E. discriminate. }
      split; [reflexivity|]. split; [split; [congruence|intros Hne; contradiction]|].
      split; [intros Hne; contradiction|reflexivity].
Qed.

Section Cancel.

Variable env : Env.

(** One turn of the retry loop. *)
Lemma cancel_loop_step n vb t :
  let v := buildv1.set_Cancelled vb in
  let t1 := t ++ [EvUpdateBuild v] in
  let t2 := t ++ [EvUpdateBuild v; EvGetBuild (buildv1.Name v)] in
  WaitFor n (cancel_cond env) vb t =
  match UpdateBuild env t v with
  | None => (None, v, t1)
  | Some e =>
      if IsConflict e then
        match GetBuild env t1 (buildv1.Name v) with
        | inl fetched =>
            match n with
            | O => (Some ErrWaitTimeout, fetched, t2)
            | S m => WaitFor m (cancel_cond env) fetched t2
            end
        | inr e' => (Some e', v, t2)
        end
      else (Some e, v, t1)
  end.
Proof.
  intros v t1 t2. rewrite WaitFor_unfold. unfold cancel_cond. run.
  fold v. fold t1.
  destruct (UpdateBuild env t v) as [e|]; [|reflexivity].
  destruct (IsConflict e); [|reflexivity].
  replace (t1 ++ [EvGetBuild (buildv1.Name v)]) with t2
    by (unfold t1, t2; rewrite <- app_assoc; reflexivity).
  destruct (GetBuild env t1 (buildv1.Name v)); reflexivity.
Qed.

Lemma set_Cancelled_flag vb :
  buildv1.Cancelled (buildv1.Status (buildv1.set_Cancelled vb)) = true.
Proof. reflexivity. Qed.


End Cancel.




(* ================================================================== *)
(** The calls that follow a wait that reported Running: the client is
    built, then the executor if that worked, then the stream is opened if
    that worked too. *)
Lemma running_upload_calls env h body p ns n d q :
  snd (handle env h body []) = p ++ EvWaitForRunningBuild ns n d :: q ->
  observed_running (WaitForRunningBuild env p ns n d) = true ->
  exists b,
    launch_stage env h [] = (Ok (b, d), p) /\
    let a := attach_request env b in
    let t1 := p ++ [EvWaitForRunningBuild ns n d] in
    exists q1,
      q = EvRESTClientFor :: q1 /\
      (RESTClientFor env t1 = None ->
       exists q2,
         q1 = EvNewSPDYExecutor a :: q2 /\
         (NewSPDYExecutor env (t1 ++ [EvRESTClientFor]) a = None ->
          exists q3, q2 = EvStream a body :: q3)) /\
      (stream_called q = true <->
       RESTClientFor env t1 = None /\
       NewSPDYExecutor env (t1 ++ [EvRESTClientFor]) a = None).
Proof.
  intros H Hr.
  destruct (reaches_wait env h body p ns n d q H) as [b [Hl [-> [-> [Hh _]]]]].
  exists b. split; [exact Hl|]. cbv zeta.
  rewrite Hh, guarded_eq in H.
  rewrite (wait_running env h body b d p Hr) in H.
  rewrite upload_cases in H. cbv zeta in H.
  fold (wait_event b d) in *.
  set (a := attach_request env b) in *.
  set (t1 := p ++ [wait_event b d]) in *.
  assert (Hns : forall c, forallb is_cancel_event c = true ->
                          existsb is_stream_event c = false).
  { intros c. apply existsb_none. intros x; destruct x; cbn; congruence. }
  destruct (RESTClientFor env t1) as [e1|].
  { cbn [snd] in H.
    destruct (cancelBuild_events env b (t1 ++ [EvRESTClientFor])) as [c [Hc Hcf]].
    rewrite Hc in H. unfold t1 in H. rewrite <- !app_assoc in H.
    apply app_inv_head in H. injection H as <-.
    eexists. split; [reflexivity|]. split; [discriminate|].
    unfold stream_called. cbn [existsb is_stream_event orb]. rewrite (Hns c Hcf).
    split; [discriminate|intros [Hx _]; discriminate]. }
  replace (t1 ++ [EvRESTClientFor; EvNewSPDYExecutor a])
    with ((t1 ++ [EvRESTClientFor]) ++ [EvNewSPDYExecutor a]) in H
    by (rewrite <- app_assoc; reflexivity).
  destruct (NewSPDYExecutor env (t1 ++ [EvRESTClientFor]) a) as [e2|].
  { cbn [snd] in H.
    destruct (cancelBuild_events env b ((t1 ++ [EvRESTClientFor]) ++ [EvNewSPDYExecutor a]))
      as [c [Hc Hcf]].
    rewrite Hc in H. unfold t1 in H. rewrite <- !app_assoc in H.
    apply app_inv_head in H. injection H as <-.
    eexists. split; [reflexivity|]. split.
    - intros _. eexists. split; [reflexivity|discriminate].
    - unfold stream_called. cbn [existsb is_stream_event orb]. rewrite (Hns c Hcf).
      split; [discriminate|intros [_ Hx]; discriminate]. }
  assert (Hq : exists q3, q = EvRESTClientFor :: EvNewSPDYExecutor a :: EvStream a body :: q3).
  { destruct (Stream env _ a body); cbn [snd] in H.
    - match type of H with snd (cancelBuild _ _ ?t) = _ =>
        destruct (cancelBuild_events env b t) as [c [Hc Hcf]] end.
      rewrite Hc in H. unfold t1 in H. rewrite <- !app_assoc in H.
      apply app_inv_head in H. injection H as <-. eauto.
    - unfold t1 in H. rewrite <- !app_assoc in H.
      apply app_inv_head in H. injection H as <-. eauto. }
  destruct Hq as [q3 ->].
  eexists. split; [reflexivity|]. split.
  - intros _. eexists. split; [reflexivity|]. intros _. eauto.
  - cbn. split; auto.
Qed.

(** C1.  Phase gating.  Take any run of [handle] that reaches the phase
    wait, and let [w] be what the wait returned.  The upload (the calls of
    the attach-and-stream section) is attempted after the wait if and only
    if the phase [w] reports is exactly Running, and the stream call itself
    is made only then.  When [w] reports Error,
    Failed or Cancelled the run ends with an error and makes no cancellation
    call at all.  For every other outcome that is not Running (a deleted
    build, an observation error, a timeout, New, Pending, Complete or an
    unknown phase) the run ends with an error and the cancellation is
    attempted.  When [w] reports Running the upload does proceed: the next
    call builds the REST client; if that succeeds the executor for the
    attach request of the launched build comes next; if that succeeds too
    the request body is streamed to that attach request; and the stream
    call is made exactly when the client and the executor were both
    obtained. *)
Theorem phase_gating env h body p ns n d q :
  snd (handle env h body []) = p ++ EvWaitForRunningBuild ns n d :: q ->
  let w := WaitForRunningBuild env p ns n d in
  let res := fst (handle env h body []) in
  (upload_attempted q = true <-> observed_phase w = Some BuildPhaseRunning) /\
  (stream_called q = true -> observed_phase w = Some BuildPhaseRunning) /\
  (observed_terminal w = true ->
     is_Err res = true /\ cancel_attempted (p ++ EvWaitForRunningBuild ns n d :: q) = false) /\
  (observed_running w = false -> observed_terminal w = false ->
     is_Err res = true /\ cancel_attempted q = true) /\
  (observed_phase w = Some BuildPhaseRunning ->
     exists b,
       launch_stage env h [] = (Ok (b, d), p) /\
       let a := attach_request env b in
       let t1 := p ++ [EvWaitForRunningBuild ns n d] in
       exists q1,
         q = EvRESTClientFor :: q1 /\
         (RESTClientFor env t1 = None ->
          exists q2,
            q1 = EvNewSPDYExecutor a :: q2 /\
            (NewSPDYExecutor env (t1 ++ [EvRESTClientFor]) a = None ->
             exists q3, q2 = EvStream a body :: q3)) /\
         (stream_called q = true <->
          RESTClientFor env t1 = None /\
          NewSPDYExecutor env (t1 ++ [EvRESTClientFor]) a = None)).
Proof.
  intros H w res.
  destruct (phase_switch_outcomes env h body p ns n d q H) as [H1 [H2 [H3 H4]]].
  repeat (split; [assumption|]).
  intros Hw. apply observed_running_iff in Hw.
  exact (running_upload_calls env h body p ns n d q H Hw).
Qed.

(** ** The theorems on concrete runs *)

(** Phase gating on three runs: the build fails, stays pending, runs. *)
Lemma phase_gating_witness :
  (is_Err (fst (handle Scenario.build_fails Scenario.handler Scenario.payload [])) = true /\
   cancel_attempted (snd (handle Scenario.build_fails Scenario.handler Scenario.payload [])) = false) /\
  (is_Err (fst (handle Scenario.still_pending Scenario.handler Scenario.payload [])) = true /\
   cancel_attempted (skipn 5 (snd (handle Scenario.still_pending Scenario.handler Scenario.payload []))) = true) /\
  upload_attempted (skipn 5 (snd (handle Scenario.succeeds Scenario.handler Scenario.payload []))) = true /\
  stream_called (skipn 5 (snd (handle Scenario.succeeds Scenario.handler Scenario.payload []))) = true.
Proof.
  split; [|split; [|split]].
  - pose (tr := snd (handle Scenario.build_fails Scenario.handler Scenario.payload [])).
    apply (phase_gating Scenario.build_fails Scenario.handler Scenario.payload
             (firstn 4 tr) "demo" "app-1" (298 * Second) (skipn 5 tr) eq_refl).
    reflexivity.
  - pose (tr := snd (handle Scenario.still_pending Scenario.handler Scenario.payload [])).
    apply (phase_gating Scenario.still_pending Scenario.handler Scenario.payload
             (firstn 4 tr) "demo" "app-1" (298 * Second) (skipn 5 tr) eq_refl);
      reflexivity.
  - pose (tr := snd (handle Scenario.succeeds Scenario.handler Scenario.payload [])).
    apply (phase_gating Scenario.succeeds Scenario.handler Scenario.payload
             (firstn 4 tr) "demo" "app-1" (298 * Second) (skipn 5 tr) eq_refl).
    reflexivity.
  - pose (tr := snd (handle Scenario.succeeds Scenario.handler Scenario.payload [])).
    destruct (phase_gating Scenario.succeeds Scenario.handler Scenario.payload
                (firstn 4 tr) "demo" "app-1" (298 * Second) (skipn 5 tr) eq_refl)
      as [_ [_ [_ [_ Hrun]]]].
    destruct (Hrun eq_refl) as [b [_ [q1 [_ [_ Hiff]]]]].
    apply Hiff. split; reflexivity.
Defined.

(** The launch of the run whose tag turns up at the fourth poll. *)
Lemma launch_retry_witness :
  launch_stage Scenario.tag_late Scenario.handler [] =
  (Ok (Scenario.launched, 295 * Second),
   Scenario.entry ++ repeat (EvInstantiateInternal Scenario.request) 4 ++
   [EvNow (6 * Second)]).
Proof.
  apply (launch_retry Scenario.tag_late Scenario.handler Scenario.payload 3).
  - reflexivity.
  - vm_compute. lia.
  - intros j Hj. exists (Scenario.not_found "imagestreamtags").
    destruct j as [|[|[|j]]]; [split; reflexivity ..|lia].
Defined.

(** The run whose generator reports the image stream tag as missing the way
    [errors.NewNotFound] does: one call, although 300 ticks are left. *)
Lemma image_stream_tag_error_not_retried_witness :
  poll_ticks Second (Timeout (r Scenario.handler))
             (PollTicks Edge.tag_not_found Scenario.entry) = 300%nat /\
  handle Edge.tag_not_found Scenario.handler Scenario.payload [] =
  (Err (NewNotFound "imagestreamtags" "app:latest"),
   Scenario.entry ++ [EvInstantiateInternal Scenario.request]).
Proof.
  split; [reflexivity|].
  apply (image_stream_tag_error_not_retried Edge.tag_not_found Scenario.handler
           Scenario.payload "app:latest"); reflexivity.
Defined.

(** The run whose stream breaks. *)
Lemma streaming_error_returned_witness :
  fst (handle Scenario.stream_breaks Scenario.handler Scenario.payload []) =
  Err (NewInternalError (GoError "connection reset")) /\
  cancel_attempted
    (skipn 8 (snd (handle Scenario.stream_breaks Scenario.handler Scenario.payload []))) = true.
Proof.
  pose (tr := snd (handle Scenario.stream_breaks Scenario.handler Scenario.payload [])).
  destruct (streaming_error_returned Scenario.stream_breaks Scenario.handler
              Scenario.payload (firstn 7 tr)
              (attach_request Scenario.stream_breaks Scenario.launched)
              Scenario.payload (skipn 8 tr) (GoError "connection reset")
              eq_refl eq_refl) as [H1 [_ [H2 _]]].
  split; [exact H1|exact H2].
Defined.


(** The run whose launch fails. *)
Lemma guard_armed_after_launch_witness :
  handle Scenario.launch_fails Scenario.handler Scenario.payload [] =
  (Err (GoError "no such build config"),
   Scenario.entry ++ [EvInstantiateInternal Scenario.request]) /\
  cancel_attempted (Scenario.entry ++ [EvInstantiateInternal Scenario.request]) = false.
Proof.
  exact (guard_armed_after_launch Scenario.launch_fails Scenario.handler Scenario.payload).
Defined.

(** The run whose build never runs. *)
Lemma wait_timeout_names_configured_timeout_witness :
  fst (handle Scenario.never_runs Scenario.handler Scenario.payload []) =
  Err (NewTimeoutError
         (Sprintf "timed out waiting for build %s to start after %s"
                  [AString "app-1"; ADuration (5 * Minute)]) 0) /\
  upload_attempted
    (snd (handle Scenario.never_runs Scenario.handler Scenario.payload [])) = false.
Proof.
  pose (tr := snd (handle Scenario.never_runs Scenario.handler Scenario.payload [])).
  destruct (wait_timeout_names_configured_timeout Scenario.never_runs Scenario.handler
              Scenario.payload (firstn 7 tr) "demo" "app-1" (295 * Second) (skipn 8 tr)
              eq_refl eq_refl) as [H1 [_ H2]].
  split; [exact H1|exact H2].
Defined.

(** The budget of the wait in the run whose build never runs. *)
Lemma wait_receives_remainder_witness :
  exists t0 k t1,
    Scenario.entry ++ repeat (EvInstantiateInternal Scenario.request) 4 ++
      [EvNow (6 * Second)] =
    EvBeforeCreate (set_Name Scenario.plain "app") :: EvNow t0 ::
      repeat (EvInstantiateInternal Scenario.request) (S k) ++ [EvNow t1] /\
    295 * Second = sub64 (5 * Minute) (sat64 (t1 - t0)) /\
    (0 <= 5 * Minute <= maxDuration -> 0 <= t1 - t0 <= maxDuration ->
     295 * Second = 5 * Minute - (t1 - t0)).
Proof.
  pose (tr := snd (handle Scenario.never_runs Scenario.handler Scenario.payload [])).
  exact (wait_receives_remainder Scenario.never_runs Scenario.handler
           Scenario.payload (firstn 7 tr) "demo" "app-1" (295 * Second) (skipn 8 tr)
           eq_refl).
Defined.

(** The run that succeeds. *)
Lemma streaming_success_witness :
  ServeHTTP Scenario.succeeds Scenario.handler Scenario.payload [] =
  (tt, snd (handle Scenario.succeeds Scenario.handler Scenario.payload []) ++
       [EvRespondObject 201 (Scenario.snapshot "3" BuildPhaseRunning EmptyString EmptyString);
        EvBodyClose]) /\
  cancel_attempted
    (snd (handle Scenario.succeeds Scenario.handler Scenario.payload [])) = false.
Proof.
  pose (tr := snd (handle Scenario.succeeds Scenario.handler Scenario.payload [])).
  destruct (streaming_success Scenario.succeeds Scenario.handler Scenario.payload
              (firstn 7 tr) (attach_request Scenario.succeeds Scenario.launched)
              Scenario.payload (skipn 8 tr) eq_refl eq_refl)
    as [p0 [ns [n [d [Hp [_ [_ [Hc Hs]]]]]]]].
  split; [reflexivity|exact Hc].
Defined.

(** The request of the sample handler. *)
Lemma trigger_cause_and_revision_witness :
  buildapi.req_TriggeredBy Scenario.request = None /\
  buildapi.req_Revision Scenario.request = None /\
  exists sent,
    snd (Create Scenario.succeeds Scenario.request (fun _ => None) []) =
    [EvBeforeCreateRequest Scenario.request; EvCreateValidation Scenario.request;
     EvInstantiateInternal sent] /\
    buildapi.req_TriggeredBy sent = Some [{| buildapi.cause_Message := "manual" |}] /\
    buildapi.req_Name sent = "app".
Proof.
  destruct (trigger_cause_and_revision Scenario.succeeds) as [HC HB].
  destruct (HB Scenario.handler Scenario.payload Scenario.request)
    as [H1 [_ [_ H2]]].
  { vm_compute. auto. }
  split; [exact H1|]. split; [apply H2; reflexivity|].
  destruct (HC Scenario.request (fun _ => None) eq_refl eq_refl eq_refl) as [Hrun Hsent].
  eexists. split; [rewrite Hrun; reflexivity|].
  destruct (Hsent _ (or_intror (or_intror (or_introl eq_refl)))) as [Ht [Hn _]].
  split; [exact Ht|exact Hn].
Defined.

(** C6.  The run in which the launched build carries no reason and no
    message and the phase wait reports phase Failed with reason "BuildError"
    and message "exit status 1": the rejection names the reason and message
    of the launched build (both empty), not those of the snapshot that
    reached Failed.  No cancellation call is made. *)
Example failed_rejection_reports_launch_snapshot :
  let launched := Scenario.launched in
  let latest := wr_latest (Scenario.reports BuildPhaseFailed "BuildError" "exit status 1") in
  let m := Sprintf "build %s failed: %s: %s"
             [AString (buildapi.Name launched);
              AString (buildapi.Reason (buildapi.Status launched));
              AString (buildapi.Message (buildapi.Status launched))] in
  handle Scenario.build_fails Scenario.handler Scenario.payload [] =
  (Err (NewBadRequest m),
   Scenario.entry ++
   [EvInstantiateInternal Scenario.request; EvNow (3 * Second);
    EvWaitForRunningBuild "demo" "app-1" (298 * Second)]) /\
  buildv1.Phase (buildv1.Status latest) = BuildPhaseFailed /\
  buildv1.Reason (buildv1.Status latest) = "BuildError" /\
  buildv1.Message (buildv1.Status latest) = "exit status 1" /\
  message_strings m = ["app-1"; EmptyString; EmptyString] /\
  ~ In (buildv1.Reason (buildv1.Status latest)) (message_strings m) /\
  ~ In (buildv1.Message (buildv1.Status latest)) (message_strings m).
Proof.
  cbv zeta. repeat split; try reflexivity.
  - cbn. intros [H|[H|[H|[]]]]; discriminate.
  - cbn. intros [H|[H|[H|[]]]]; discriminate.
Qed.

(** C5, as stated, fails: a launch failure leaves [handle] without any
    cancellation call, so the guard is not armed at entry. *)
Lemma guard_armed_at_entry_counterexample :
  ~ (forall env h body e t1,
       launch_stage env h [] = (Err e, t1) ->
       cancel_attempted (snd (handle env h body [])) = true).
Proof.
  intros H.
  specialize (H Scenario.launch_fails Scenario.handler Scenario.payload _ _ eq_refl).
  vm_compute in H. discriminate.
Qed.

(** C7, as stated, fails: after a launch that took five seconds the wait
    is given 4m55s and runs out, and the message names 5m0s. *)
Lemma timeout_names_wait_duration_counterexample :
  ~ (forall env h body p ns n d q,
       snd (handle env h body []) = p ++ EvWaitForRunningBuild ns n d :: q ->
       timed_out (WaitForRunningBuild env p ns n d) = true ->
       exists m k,
         fst (handle env h body []) = Err (NewTimeoutError m k) /\
         In d (message_durations m)).
Proof.
  intros H.
  pose (tr := snd (handle Scenario.never_runs Scenario.handler Scenario.payload [])).
  destruct (H Scenario.never_runs Scenario.handler Scenario.payload
              (firstn 7 tr) "demo" "app-1" (295 * Second) (skipn 8 tr)
              eq_refl eq_refl) as [m [k [Hm Hd]]].
  vm_compute in Hm. injection Hm as <- _.
  cbn in Hd. destruct Hd as [Hd|[]]. discriminate.
Qed.
(* ================================================================== *)
(** ** Further properties of the handlers *)

(** X1.
    [InstantiateREST.Create] calls the generator at most once, and only
    after both validations have passed.  A request that comes with a list of
    causes, an empty one included, goes to the generator as it is, and
    [Create] hands back the answer of the generator, value or error.  When a
    validation rejects the request, [Create] returns that error. *)
Theorem Create_calls_generator_once env obj createValidation :
  let run := Create env obj createValidation [] in
  let t := [EvBeforeCreateRequest obj; EvCreateValidation obj] in
  (count is_instantiate_event (snd run) <= 1)%nat /\
  (forall req,
     In (EvInstantiateInternal req) (snd run) ->
     BeforeCreateRequest env obj = None /\
     createValidation obj = None /\
     buildapi.req_TriggeredBy req <> None /\
     (forall causes, buildapi.req_TriggeredBy obj = Some causes -> req = obj) /\
     run = (InstantiateInternal env t req, t ++ [EvInstantiateInternal req])) /\
  (forall e, BeforeCreateRequest env obj = Some e ->
     run = (inr e, [EvBeforeCreateRequest obj])) /\
  (forall e, BeforeCreateRequest env obj = None ->
     createValidation obj = Some e -> run = (inr e, t)).
Proof.
  intros run t. subst run. unfold Create. run.
  destruct (BeforeCreateRequest env obj) as [e1|].
  { cbn. split; [lia|]. split; [intros req [H|[]]; discriminate|].
    split; [intros e H; injection H as <-; reflexivity|discriminate]. }
  destruct (createValidation obj) as [e2|].
  { cbn. split; [lia|]. split; [intros req [H|[H|[]]]; discriminate|].
    split; [discriminate|intros e _ H; injection H as <-; reflexivity]. }
  cbn [app snd]. split; [cbn; lia|]. split.
  - intros req [H|[H|[H|[]]]]; try discriminate.
    injection H as <-. split; [reflexivity|]. split; [reflexivity|].
    destruct (buildapi.req_TriggeredBy obj) as [c|] eqn:Hc.
    + split; [congruence|]. split; [reflexivity|]. reflexivity.
    + split; [discriminate|]. split; [discriminate|reflexivity].
  - split; discriminate.
Qed.

(** The run of the request with an empty list of causes. *)
Lemma Create_calls_generator_once_witness :
  Create Scenario.succeeds Edge.no_causes (fun _ => None) [] =
  (inl Scenario.launched,
   [EvBeforeCreateRequest Edge.no_causes; EvCreateValidation Edge.no_causes;
    EvInstantiateInternal Edge.no_causes]) /\
  Create Edge.invalid Edge.no_causes (fun _ => None) [] =
  (inr (GoError "invalid request"), [EvBeforeCreateRequest Edge.no_causes]).
Proof.
  destruct (Create_calls_generator_once Scenario.succeeds Edge.no_causes (fun _ => None))
    as [_ [H _]].
  destruct (Create_calls_generator_once Edge.invalid Edge.no_causes (fun _ => None))
    as [_ [_ [H2 _]]].
  split.
  - destruct (H Edge.no_causes) as [_ [_ [_ [_ Hr]]]]; [|exact Hr].
    right. right. left. reflexivity.
  - apply H2. reflexivity.
Defined.

(** The trace of a run of [handle] starts with the validation of the options
    under the name of the handler; everything else comes after a validation
    that passed. *)
Lemma handle_trace_head env h body :
  let o := set_Name (options h) (name h) in
  exists rest,
    snd (handle env h body []) = EvBeforeCreate o :: rest /\
    forallb (fun e => negb (is_validation_event e)) rest = true /\
    (rest <> [] -> BeforeCreate env o = None) /\
    (forall e, BeforeCreate env o = Some e ->
       handle env h body [] = (Err e, [EvBeforeCreate o])).
Proof.
  intros o. rewrite handle_stages.
  pose proof (launch_stage_shape env h) as Hs. cbv zeta in Hs. fold o in Hs.
  assert (Hv : forall e, BeforeCreate env o = Some e ->
             launch_stage env h [] = (Err e, [EvBeforeCreate o])).
  { intros e He. unfold launch_stage. run. fold o. rewrite He. reflexivity. }
  assert (Hn : forall x k, launch_stage env h [] =
                 (x, EvBeforeCreate o :: EvNow (Now env [EvBeforeCreate o]) :: k) ->
               BeforeCreate env o = None).
  { intros x k Hl. destruct (BeforeCreate env o) as [e|] eqn:He; [|reflexivity].
    rewrite (Hv e eq_refl) in Hl. discriminate. }
  assert (Hrep : forall k, forallb (fun e => negb (is_validation_event e))
            (repeat (EvInstantiateInternal (binary_request h o)) k) = true).
  { induction k; cbn; auto. }
  destruct (launch_stage env h []) as [x p].
  destruct x as [[b d]|e|].
  - destruct Hs as [k [Hp Hd]].
    destruct (guarded_trace env h body b d p) as [g [Hg Hgf]].
    rewrite Hg, Hp. cbn [app]. eexists. split; [reflexivity|].
    split; [|split].
    + cbn. rewrite !forallb_app, Hrep. cbn.
      eapply forallb_impl; [|exact Hgf].
      intros e; destruct e; cbn; congruence.
    + intros _. eapply (Hn (Ok (b, d))). rewrite Hp. cbn [app]. reflexivity.
    + intros e He. discriminate (Hv e He).
  - destruct Hs as [->|[k ->]].
    + exists []. split; [reflexivity|]. split; [reflexivity|].
      split; [congruence|]. intros e0 He0. pose proof (Hv e0 He0) as Hx.
      injection Hx as <-. reflexivity.
    + eexists. split; [reflexivity|]. split; [|split].
      * cbn [forallb]. change (negb (is_validation_event (EvNow _))) with true.
        cbn [andb]. apply (Hrep (S k)).
      * intros _. eapply (Hn (Err e)). reflexivity.
      * intros e0 He0. discriminate (Hv e0 He0).
  - contradiction.
Qed.

(** X2.
    A validation failure of [handle] is returned as it is and ends the run
    before anything else is called; conversely, a run that makes any further
    call has passed the validation.  The options are validated exactly once,
    under the name of the handler. *)
Theorem validation_failure_stops_handle env h body :
  let o := set_Name (options h) (name h) in
  (forall e, BeforeCreate env o = Some e ->
     handle env h body [] = (Err e, [EvBeforeCreate o])) /\
  (forall e, In e (snd (handle env h body [])) -> is_validation_event e = false ->
     BeforeCreate env o = None) /\
  (forall o', In (EvBeforeCreate o') (snd (handle env h body [])) -> o' = o) /\
  count is_validation_event (snd (handle env h body [])) = 1%nat.
Proof.
  intros o. destruct (handle_trace_head env h body) as [rest [Ht [Hf [Hn Hv]]]].
  fold o in Ht, Hn, Hv. rewrite Ht.
  split; [exact Hv|]. split; [|split].
  - intros e [He|He] Hne.
    + subst e. discriminate.
    + apply Hn. intros ->. destruct He.
  - intros o' [He|He]; [congruence|].
    apply (In_class _ _ _ Hf) in He. discriminate.
  - unfold count. cbn.
    assert (Hz : filter is_validation_event rest = []).
    { clear -Hf. induction rest as [|a l IH]; cbn in *; [reflexivity|].
      apply andb_true_iff in Hf as [Ha Hl].
      destruct (is_validation_event a); [discriminate|auto]. }
    rewrite Hz. reflexivity.
Qed.

(** The run whose options are rejected. *)
Lemma validation_failure_stops_handle_witness :
  handle Edge.invalid Scenario.handler Scenario.payload [] =
  (Err (GoError "invalid options"), [EvBeforeCreate (set_Name Scenario.plain "app")]) /\
  BeforeCreate Scenario.succeeds (set_Name Scenario.plain "app") = None.
Proof.
  destruct (validation_failure_stops_handle Edge.invalid Scenario.handler Scenario.payload)
    as [H1 _].
  destruct (validation_failure_stops_handle Scenario.succeeds Scenario.handler Scenario.payload)
    as [_ [H2 _]].
  split; [apply H1; reflexivity|].
  apply (H2 (EvNow (1 * Second))); [|reflexivity].
  right. left. reflexivity.
Defined.

Lemma count_app (P : Event -> bool) (l1 l2 : Trace) :
  count P (l1 ++ l2) = (count P l1 + count P l2)%nat.
Proof. unfold count. rewrite filter_app, length_app. reflexivity. Qed.

Lemma count_cons (P : Event -> bool) (e : Event) (l : Trace) :
  count P (e :: l) = ((if P e then 1 else 0) + count P l)%nat.
Proof. unfold count. cbn. destruct (P e); reflexivity. Qed.

Lemma count_none (P Q : Event -> bool) (l : Trace) :
  (forall e, P e = true -> Q e = false) ->
  forallb P l = true -> count Q l = 0%nat.
Proof.
  intros HPQ H. induction l as [|a l IH]; [reflexivity|].
  cbn in H. apply andb_true_iff in H as [Ha Hl].
  rewrite count_cons, (HPQ a Ha), (IH Hl). reflexivity.
Qed.

Lemma count_repeat (P : Event -> bool) (e : Event) (k : nat) :
  count P (repeat e k) = if P e then k else 0%nat.
Proof.
  induction k as [|k IH]; [destruct (P e); reflexivity|].
  cbn [repeat]. rewrite count_cons, IH. destruct (P e); reflexivity.
Qed.

(** After the conversion, [cancelBuild] makes update and re-fetch calls
    only. *)
Lemma cancelBuild_loop_events env build t :
  exists c,
    snd (cancelBuild env build t) = t ++ EvConvert build :: c /\
    forallb (fun e => is_update_event e || is_get_event e) c = true.
Proof.
  unfold cancelBuild. run.
  destruct (Convert env t build) as [vb|e]; [|exists []; split; reflexivity].
  unfold Poll.
  match goal with
  | |- context [WaitFor ?n ?c ?s0 ?t0] =>
      assert (Hc : forall s t, exists evs,
                 snd (c s t) = t ++ evs /\
                 forallb (fun e => is_update_event e || is_get_event e) evs = true);
      [|destruct (WaitFor_events c _ Hc n s0 t0) as [evs [Ht He]];
        destruct (WaitFor n c s0 t0) as [x t1]]
  end.
  { intros s t1. unfold cancel_cond. run.
    destruct (UpdateBuild env t1 _) as [e|]; [|eexists; split; reflexivity].
    destruct (IsConflict e); [|eexists; split; reflexivity].
    destruct (GetBuild env _ _); eexists; rewrite <- app_assoc; split; reflexivity. }
  cbn [snd] in *. subst t1. eexists. rewrite <- !app_assoc. split; [reflexivity|].
  cbn. exact He.
Qed.

(** The calls of a run after the launch: the wait, a part of the three calls
    of the upload, and the cancellation or nothing. *)
Lemma run_shape env h body :
  (exists e, handle env h body [] = (Err e, snd (launch_stage env h [])) /\
             fst (launch_stage env h []) = Err e) \/
  (exists b d p j c,
     launch_stage env h [] = (Ok (b, d), p) /\
     snd (handle env h body []) =
     p ++ wait_event b d ::
       firstn j [EvRESTClientFor; EvNewSPDYExecutor (attach_request env b);
                 EvStream (attach_request env b) body] ++ c /\
     (c = [] \/
      exists c', c = EvConvert b :: c' /\
                 forallb (fun e => is_update_event e || is_get_event e) c' = true)).
Proof.
  rewrite handle_stages.
  pose proof (launch_stage_shape env h) as Hs. cbv zeta in Hs.
  destruct (launch_stage env h []) as [x p].
  destruct x as [[b d]|e|]; [right|left; exists e; auto|contradiction].
  clear Hs. exists b, d, p.
  pose proof (guarded_cases env h body b d p) as Hg. cbv zeta in Hg.
  set (a := attach_request env b).
  destruct (observed_running _).
  - destruct Hg as [res [cancel [upl [Hu [_ Hg]]]]].
    rewrite upload_cases in Hu. cbv zeta in Hu. fold a in Hu.
    assert (Hj : exists j, EvRESTClientFor :: upl =
                           firstn j [EvRESTClientFor; EvNewSPDYExecutor a; EvStream a body]).
    { destruct (RESTClientFor env _); [|destruct (NewSPDYExecutor env _ _);
                                         [|destruct (Stream env _ _ _)]];
        injection Hu as _ _ Ht; apply app_inv_head in Ht; rewrite <- Ht;
        [exists 1%nat|exists 2%nat|exists 3%nat|exists 3%nat]; reflexivity. }
    destruct Hj as [j Hj]. exists j. rewrite Hg. cbn [snd].
    destruct cancel.
    + destruct (cancelBuild_loop_events env b ((p ++ [wait_event b d]) ++ EvRESTClientFor :: upl))
        as [c [Hc Hcf]].
      exists (EvConvert b :: c). split; [reflexivity|]. split; [|eauto].
      rewrite Hc, Hj, <- ?app_assoc; reflexivity.
    + exists []. split; [reflexivity|]. split; [|auto].
      rewrite Hj, app_nil_r, <- ?app_assoc; reflexivity.
  - destruct Hg as [e Hg]. exists 0%nat. rewrite Hg. cbn [snd firstn app].
    destruct (observed_terminal _).
    + exists []. split; [reflexivity|]. split; [|auto].
      rewrite <- ?app_assoc; reflexivity.
    + destruct (cancelBuild_loop_events env b (p ++ [wait_event b d])) as [c [Hc Hcf]].
      exists (EvConvert b :: c). split; [reflexivity|]. split; [|eauto].
      rewrite Hc, <- ?app_assoc; reflexivity.
Qed.

(** Where an event of a run that reached the wait can sit. *)
Lemma run_event_cases env (b : buildapi.Build) (d : Z) (body : list byte)
    (p c : Trace) (j : nat) (e : Event) :
  forallb is_launch_event p = true ->
  (c = [] \/
   exists c', c = EvConvert b :: c' /\
              forallb (fun e => is_update_event e || is_get_event e) c' = true) ->
  In e (p ++ wait_event b d ::
          firstn j [EvRESTClientFor; EvNewSPDYExecutor (attach_request env b);
                    EvStream (attach_request env b) body] ++ c) ->
  is_launch_event e = true \/ e = wait_event b d \/ e = EvRESTClientFor \/
  e = EvNewSPDYExecutor (attach_request env b) \/
  e = EvStream (attach_request env b) body \/ e = EvConvert b \/
  (is_update_event e || is_get_event e) = true.
Proof.
  intros Hp Hc Hin. apply in_app_or in Hin as [Hin|[Hin|Hin]].
  - left. exact (In_class _ _ _ Hp Hin).
  - subst e. auto.
  - apply in_app_or in Hin as [Hin|Hin].
    + clear Hc. destruct j as [|[|[|j]]]; cbn in Hin; rewrite ?firstn_nil in Hin;
        cbn in Hin; intuition (subst; auto 10).
    + destruct Hc as [->|[c' [-> Hc']]]; [destruct Hin|].
      destruct Hin as [Hin|Hin]; [subst e; auto 10|].
      do 6 right. exact (In_class _ _ _ Hc' Hin).
Qed.

(** X5.
    [handle] attaches to the pod and namespace of the launched build with
    standard input enabled, to the custom-build container when the build has
    a custom strategy and to the clone container otherwise; what it streams
    is the request body. *)
Theorem attach_targets_launched_build env h body a :
  let tr := snd (handle env h body []) in
  In (EvNewSPDYExecutor a) tr \/ (exists stdin, In (EvStream a stdin) tr) ->
  exists b d p,
    launch_stage env h [] = (Ok (b, d), p) /\
    att_Pod a = GetBuildPodName env b /\
    att_Namespace a = buildapi.Namespace b /\
    att_Stdin a = true /\
    (att_Container a = CustomBuild <-> buildapi.CustomStrategy b <> None) /\
    (att_Container a = GitCloneContainer <-> buildapi.CustomStrategy b = None) /\
    (forall stdin, In (EvStream a stdin) tr -> stdin = body).
Proof.
  intros tr Hin. subst tr.
  destruct (run_shape env h body) as [[e [Hh Hl]]|[b [d [p [j [c [Hl [Ht Hc]]]]]]]].
  - exfalso. rewrite Hh in Hin. cbn [snd] in Hin.
    destruct (launch_stage_events env h []) as [evs [He Hf]]. cbn [app] in He.
    rewrite He in Hin.
    destruct Hin as [Hin|[s Hin]]; apply (In_class _ _ _ Hf) in Hin; discriminate.
  - destruct (launch_stage_events env h []) as [evs [He Hf]].
    rewrite Hl in He. cbn [app] in He. subst evs.
    assert (Ha : a = attach_request env b).
    { rewrite Ht in Hin. destruct Hin as [Hin|[s Hin]];
        apply (run_event_cases env b d body p c j _ Hf Hc) in Hin;
        destruct Hin as [H|[H|[H|[H|[H|[H|H]]]]]]; try discriminate; congruence. }
    subst a. exists b, d, p. split; [exact Hl|].
    split; [reflexivity|]. split; [reflexivity|]. split; [reflexivity|].
    unfold attach_request; cbn [att_Container].
    split; [|split].
    + destruct (buildapi.CustomStrategy b); split; congruence.
    + destruct (buildapi.CustomStrategy b); split; congruence.
    + intros s Hin'. rewrite Ht in Hin'.
      apply (run_event_cases env b d body p c j _ Hf Hc) in Hin'.
      destruct Hin' as [H|[H|[H|[H|[H|[H|H]]]]]]; try discriminate; congruence.
Qed.

(** The run that succeeds attaches to the clone container of
    "app-1-build". *)
Lemma attach_targets_launched_build_witness :
  exists b d p,
    launch_stage Scenario.succeeds Scenario.handler [] = (Ok (b, d), p) /\
    "app-1-build" = GetBuildPodName Scenario.succeeds b /\
    "demo" = buildapi.Namespace b /\
    true = true /\
    (GitCloneContainer = CustomBuild <-> buildapi.CustomStrategy b <> None) /\
    (GitCloneContainer = GitCloneContainer <-> buildapi.CustomStrategy b = None) /\
    (forall stdin,
       In (EvStream (attach_request Scenario.succeeds Scenario.launched) stdin)
          (snd (handle Scenario.succeeds Scenario.handler Scenario.payload [])) ->
       stdin = Scenario.payload).
Proof.
  apply (attach_targets_launched_build Scenario.succeeds Scenario.handler
           Scenario.payload (attach_request Scenario.succeeds Scenario.launched)).
  left. vm_compute. do 6 right. left. reflexivity.
Defined.

(** X6.
    A run of [handle] waits at most once, builds at most one REST client,
    streams at most once and starts at most one cancellation: neither the
    wait nor the upload is retried. *)
Theorem no_second_wait_or_upload env h body :
  let tr := snd (handle env h body []) in
  (count is_wait_event tr <= 1)%nat /\
  (count is_client_event tr <= 1)%nat /\
  (count is_stream_event tr <= 1)%nat /\
  (count is_convert_event tr <= 1)%nat.
Proof.
  intros tr. subst tr.
  destruct (launch_stage_events env h []) as [evs [He Hf]]. cbn [app] in He.
  assert (Hz : count is_wait_event evs = 0%nat /\ count is_client_event evs = 0%nat /\
               count is_stream_event evs = 0%nat /\ count is_convert_event evs = 0%nat).
  { repeat split; apply (count_none is_launch_event); auto;
      intros e; destruct e; cbn; congruence. }
  destruct Hz as [Hz1 [Hz2 [Hz3 Hz4]]].
  destruct (run_shape env h body) as [[e [Hh Hl]]|[b [d [p [j [c [Hl [Ht Hc]]]]]]]].
  - rewrite Hh. cbn [snd]. rewrite He, Hz1, Hz2, Hz3, Hz4. lia.
  - rewrite Hl in He. cbn [snd] in He. subst evs. rewrite Ht.
    assert (Hcc : count is_wait_event c = 0%nat /\ count is_client_event c = 0%nat /\
                  count is_stream_event c = 0%nat /\ (count is_convert_event c <= 1)%nat).
    { destruct Hc as [->|[c' [-> Hc']]]; [cbn; lia|].
      rewrite !count_cons. cbn [is_wait_event is_client_event is_stream_event is_convert_event].
      rewrite !(count_none (fun e => is_update_event e || is_get_event e) _ c') by
        (auto; intros e; destruct e; cbn; congruence).
      lia. }
    destruct Hcc as [Hc1 [Hc2 [Hc3 Hc4]]].
    rewrite !count_app, !count_cons, !count_app, Hz1, Hz2, Hz3, Hz4, Hc1, Hc2, Hc3.
    cbn [wait_event is_wait_event is_client_event is_stream_event is_convert_event].
    destruct j as [|[|[|j]]]; cbn [firstn]; rewrite ?firstn_nil;
      rewrite ?count_cons; cbn; lia.
Qed.

(** X7.
    The cancellation of a run converts the build the launch returned, not
    the snapshot of the phase wait. *)
Theorem cancel_converts_launched_build env h body b :
  In (EvConvert b) (snd (handle env h body [])) ->
  exists d p, launch_stage env h [] = (Ok (b, d), p).
Proof.
  intros Hin.
  destruct (launch_stage_events env h []) as [evs [He Hf]]. cbn [app] in He.
  destruct (run_shape env h body) as [[e [Hh Hl]]|[b' [d [p [j [c [Hl [Ht Hc]]]]]]]].
  - exfalso. rewrite Hh in Hin. cbn [snd] in Hin. rewrite He in Hin.
    apply (In_class _ _ _ Hf) in Hin. discriminate.
  - rewrite Hl in He. cbn [snd] in He. subst evs. rewrite Ht in Hin.
    apply (run_event_cases env b' d body p c j _ Hf Hc) in Hin.
    destruct Hin as [H|[H|[H|[H|[H|[H|H]]]]]]; try discriminate.
    injection H as ->. eauto.
Qed.

(** The run whose stream breaks cancels the launched build. *)
Lemma cancel_converts_launched_build_witness :
  exists d p,
    launch_stage Scenario.stream_breaks Scenario.handler [] =
    (Ok (Scenario.launched, d), p).
Proof.
  apply (cancel_converts_launched_build Scenario.stream_breaks Scenario.handler
           Scenario.payload Scenario.launched).
  vm_compute. do 8 right. left. reflexivity.
Defined.

(** X3.
    The name a request is connected under replaces whatever name the options
    arrive with: the run is the same for every such name, the options are
    validated under the connected name, and every request handed to the
    generator carries that name and the binary source with the file name of
    the options. *)
Theorem connected_name_overrides_options env storage n o body :
  (forall m, handle env (Connect storage n (set_Name o m)) body [] =
             handle env (Connect storage n o) body []) /\
  (forall o', In (EvBeforeCreate o') (snd (handle env (Connect storage n o) body [])) ->
              buildapi.opt_Name o' = n) /\
  (forall req,
     In (EvInstantiateInternal req) (snd (handle env (Connect storage n o) body [])) ->
     buildapi.req_Name req = n /\
     buildapi.req_Binary req = Some {| buildapi.AsFile := buildapi.opt_AsFile o |}).
Proof.
  split; [intros m; reflexivity|]. split.
  - intros o' Hin.
    destruct (handle_trace_head env (Connect storage n o) body) as [l [Ht [Hf _]]].
    rewrite Ht in Hin. destruct Hin as [Hin|Hin].
    + injection Hin as <-. reflexivity.
    + apply (In_class _ _ _ Hf) in Hin. discriminate.
  - intros req Hin. apply handle_instantiates in Hin. subst req.
    split; reflexivity.
Qed.

(** The sample handler, connected under "app" with options named
    otherwise. *)
Lemma connected_name_overrides_options_witness :
  buildapi.req_Name Scenario.request = "app" /\
  buildapi.req_Binary Scenario.request = Some {| buildapi.AsFile := EmptyString |}.
Proof.
  destruct (connected_name_overrides_options Scenario.succeeds NewBinaryStorage "app"
              (set_Name Scenario.plain "other") Scenario.payload) as [_ [_ H]].
  apply (H Scenario.request). vm_compute. right. right. left. reflexivity.
Defined.

(** The calls of the launch stage once validation has passed: at least one
    instantiation, at most one per tick and one more. *)
Lemma launch_stage_calls env h :
  let o := set_Name (options h) (name h) in
  let t0 := Now env [EvBeforeCreate o] in
  let ticks := poll_ticks Second (Timeout (r h))
                 (PollTicks env [EvBeforeCreate o; EvNow t0]) in
  BeforeCreate env o = None ->
  exists k tail,
    (k <= ticks)%nat /\
    snd (launch_stage env h []) =
    EvBeforeCreate o :: EvNow t0 ::
      repeat (EvInstantiateInternal (binary_request h o)) (S k) ++ tail /\
    count is_instantiate_event tail = 0%nat.
Proof.
  intros o t0 ticks Hv. unfold launch_stage. run. fold o. rewrite Hv.
  cbn [app]. fold t0. unfold Poll. fold ticks.
  destruct (launch_loop_trace env (binary_request h o) ticks None
              [EvBeforeCreate o; EvNow t0]) as [k [Hk Ht]].
  destruct (WaitFor ticks _ None _) as [[err build] t1]. cbn [snd] in Ht. subst t1.
  exists k. destruct err; [|destruct build]; cbn [snd app].
  - exists []. rewrite app_nil_r. auto.
  - eexists. rewrite <- ?app_assoc. cbn [app]. split; [exact Hk|]. split; reflexivity.
  - eexists. rewrite <- ?app_assoc. cbn [app]. split; [exact Hk|]. split; reflexivity.
Qed.

(** The generator is called in the launch stage only. *)
Lemma instantiations_of_run env h body :
  count is_instantiate_event (snd (handle env h body [])) =
  count is_instantiate_event (snd (launch_stage env h [])).
Proof.
  destruct (run_shape env h body) as [[e [Hh Hl]]|[b [d [p [j [c [Hl [Ht Hc]]]]]]]].
  - rewrite Hh. reflexivity.
  - rewrite Ht, Hl. cbn [snd]. rewrite count_app, count_cons, count_app.
    assert (Hcc : count is_instantiate_event c = 0%nat).
    { destruct Hc as [->|[c' [-> Hc']]]; [reflexivity|].
      rewrite count_cons. cbn [is_instantiate_event].
      rewrite (count_none (fun e => is_update_event e || is_get_event e) _ c');
        auto. intros e; destruct e; cbn; congruence. }
    rewrite Hcc. cbn [wait_event is_instantiate_event].
    destruct j as [|[|[|j]]]; cbn [firstn]; rewrite ?firstn_nil, ?count_cons; cbn; lia.
Qed.

(** X4.
    Launch retry bound.  Once validation has passed, the generator is called
    at least once; with a non-zero timeout it is called at most
    [Timeout / time.Second + 1] times in a run, that is at most 301 times
    under the five minutes of [NewBinaryStorage]. *)
Theorem launch_call_bound env h body :
  let o := set_Name (options h) (name h) in
  let calls := count is_instantiate_event (snd (handle env h body [])) in
  (BeforeCreate env o = None -> (1 <= calls)%nat) /\
  (Timeout (r h) <> 0 -> (calls <= Z.to_nat (Timeout (r h) / Second) + 1)%nat) /\
  (r h = NewBinaryStorage -> (calls <= 301)%nat).
Proof.
  intros o calls. subst calls. rewrite instantiations_of_run.
  assert (Hb : Timeout (r h) <> 0 ->
          (count is_instantiate_event (snd (launch_stage env h [])) <=
           Z.to_nat (Timeout (r h) / Second) + 1)%nat).
  { intros Hz. destruct (BeforeCreate env o) as [e|] eqn:Hv.
    - unfold launch_stage. run. fold o. rewrite Hv. cbn. lia.
    - destruct (launch_stage_calls env h Hv) as [k [tail [Hk [Ht Hc]]]].
      fold o in Ht. rewrite Ht.
      rewrite !count_cons, count_app, count_repeat, Hc.
      cbn [is_instantiate_event]. cbv zeta in Hk. fold o in Hk.
      unfold poll_ticks in Hk.
      destruct (Z.eqb_spec (Timeout (r h)) 0); [contradiction|].
      pose proof (Nat.le_min_r
        (PollTicks env [EvBeforeCreate o; EvNow (Now env [EvBeforeCreate o])])
        (Z.to_nat (Timeout (r h) / Second))). lia. }
  split; [|split].
  - intros Hv. destruct (launch_stage_calls env h Hv) as [k [tail [Hk [Ht Hc]]]].
    fold o in Ht. rewrite Ht.
    rewrite !count_cons, count_app, count_repeat. cbn [is_instantiate_event]. lia.
  - exact Hb.
  - intros Hr. rewrite Hr in Hb.
    change (Z.to_nat (Timeout NewBinaryStorage / Second)) with 300%nat in Hb.
    apply Hb. discriminate.
Qed.

(** The run whose tag turns up at the fourth poll makes four calls. *)
Lemma launch_call_bound_witness :
  (1 <= count is_instantiate_event
          (snd (handle Scenario.tag_late Scenario.handler Scenario.payload [])) <= 301)%nat.
Proof.
  destruct (launch_call_bound Scenario.tag_late Scenario.handler Scenario.payload)
    as [H1 [_ H3]].
  split; [apply H1; reflexivity|apply H3; reflexivity].
Defined.

(** The events after the wait of a run whose wait was rejected: nothing, or
    the cancellation. *)
Lemma rejected_tail env b (cancel : bool) (p q : Trace) (e : Event) :
  (if cancel then snd (cancelBuild env b (p ++ [e])) else p ++ [e]) = p ++ e :: q ->
  upload_attempted q = false /\ cancel_attempted q = cancel.
Proof.
  destruct cancel; intros H.
  - destruct (cancelBuild_events env b (p ++ [e])) as [c [Hc Hcf]].
    rewrite Hc, <- app_assoc in H. apply app_inv_head in H.
    injection H as <-. split; [|reflexivity].
    cbn. apply (existsb_none is_cancel_event); auto.
    intros x; destruct x; cbn; congruence.
  - apply app_inv_head in H. injection H as <-. split; reflexivity.
Qed.

(** X8.
    An error of the phase wait is rejected as a bad request whatever the
    other two results of the wait are: the deletion sentinel with the
    message that the build was deleted before it started, any other error
    wrapped in "unable to wait".  No upload is attempted and the
    cancellation is. *)
Theorem wait_error_is_bad_request env h body p ns n d q e :
  snd (handle env h body []) = p ++ EvWaitForRunningBuild ns n d :: q ->
  wr_err (WaitForRunningBuild env p ns n d) = Some e ->
  fst (handle env h body []) =
  Err (NewBadRequest
         match e with
         | ErrBuildDeleted =>
             Sprintf "build %s was deleted before it started: %s"
                     [AString n; AString (NoBuildLogsMessage env)]
         | _ =>
             Sprintf "unable to wait for build %s to run: %v"
                     [AString n; AError e]
         end) /\
  upload_attempted q = false /\ cancel_attempted q = true.
Proof.
  intros H He.
  destruct (reaches_wait env h body p ns n d q H) as [b [Hl [-> [-> [Hh _]]]]].
  rewrite Hh in *. rewrite guarded_eq in *.
  unfold wait_and_upload in *. run. rewrite He in *.
  destruct e; cbn [fst snd] in *;
    (split; [reflexivity|]; exact (rejected_tail env b true p q _ H)).
Qed.

(** The run in which the build is deleted while the handler waits. *)
Lemma wait_error_is_bad_request_witness :
  fst (handle Edge.deleted Scenario.handler Scenario.payload []) =
  Err (NewBadRequest
         (Sprintf "build %s was deleted before it started: %s"
                  [AString "app-1"; AString "no logs"])).
Proof.
  pose (tr := snd (handle Edge.deleted Scenario.handler Scenario.payload [])).
  apply (wait_error_is_bad_request Edge.deleted Scenario.handler Scenario.payload
           (firstn 4 tr) "demo" "app-1" (298 * Second) (skipn 5 tr)
           ErrBuildDeleted eq_refl eq_refl).
Defined.

(** X9.
    A wait that reports a phase other than Running and Failed is rejected as
    a bad request: Error with "encountered an error", Cancelled with "was
    cancelled", and any other phase (New, Pending, Complete or an unknown
    one) with "cannot upload file" and the name of that phase.  The
    cancellation is attempted exactly in the last case, so also for a build
    that is already Complete. *)
Theorem phase_rejection_messages env h body p ns n d q ph :
  snd (handle env h body []) = p ++ EvWaitForRunningBuild ns n d :: q ->
  observed_phase (WaitForRunningBuild env p ns n d) = Some ph ->
  ph <> BuildPhaseRunning -> ph <> BuildPhaseFailed ->
  let logs := AString (NoBuildLogsMessage env) in
  fst (handle env h body []) =
  Err (NewBadRequest
         (if (ph =? BuildPhaseError)%string then
            Sprintf "build %s encountered an error: %s" [AString n; logs]
          else if (ph =? BuildPhaseCancelled)%string then
            Sprintf "build %s was cancelled: %s" [AString n; logs]
          else
            Sprintf "cannot upload file to build %s with status %s"
                    [AString n; AString ph])) /\
  upload_attempted q = false /\
  cancel_attempted q =
  negb ((ph =? BuildPhaseError) || (ph =? BuildPhaseCancelled))%string.
Proof.
  intros H Hph Hr Hf logs.
  destruct (reaches_wait env h body p ns n d q H) as [b [Hl [-> [-> [Hh _]]]]].
  rewrite Hh in *. rewrite guarded_eq in *.
  unfold observed_phase in Hph.
  unfold wait_and_upload in *. run.
  destruct (wr_err _); [discriminate|].
  destruct (wr_ok _); [|discriminate]. injection Hph as Hph. rewrite Hph in *.
  cbn [negb] in *.
  apply String.eqb_neq in Hr, Hf. rewrite Hf, Hr in *. cbn [negb] in *.
  destruct (ph =? BuildPhaseError)%string.
  { cbn [fst snd] in *. split; [reflexivity|].
    exact (rejected_tail env b false p q _ H). }
  destruct (ph =? BuildPhaseCancelled)%string.
  { cbn [fst snd] in *. split; [reflexivity|].
    exact (rejected_tail env b false p q _ H). }
  cbn [fst snd] in *. split; [reflexivity|].
  exact (rejected_tail env b true p q _ H).
Qed.

(** The run whose build has already completed: rejected, and cancelled. *)
Lemma phase_rejection_messages_witness :
  fst (handle Edge.completed Scenario.handler Scenario.payload []) =
  Err (NewBadRequest
         (Sprintf "cannot upload file to build %s with status %s"
                  [AString "app-1"; AString "Complete"])) /\
  cancel_attempted
    (skipn 5 (snd (handle Edge.completed Scenario.handler Scenario.payload []))) = true.
Proof.
  pose (tr := snd (handle Edge.completed Scenario.handler Scenario.payload [])).
  destruct (phase_rejection_messages Edge.completed Scenario.handler Scenario.payload
              (firstn 4 tr) "demo" "app-1" (298 * Second) (skipn 5 tr) "Complete"
              eq_refl eq_refl) as [H1 [_ H2]]; try discriminate.
  split; [exact H1|exact H2].
Defined.

(** X10.
    Every rejection of the phase switch carries an HTTP status: 504 with
    reason Timeout when the wait ran out, 400 with reason BadRequest in
    every other case. *)
Theorem rejection_status_codes env h body p ns n d q :
  snd (handle env h body []) = p ++ EvWaitForRunningBuild ns n d :: q ->
  let w := WaitForRunningBuild env p ns n d in
  observed_running w = false ->
  exists e s,
    fst (handle env h body []) = Err e /\
    APIStatus e = Some s /\
    Code s = (if timed_out w then 504 else 400) /\
    Reason s = (if timed_out w then StatusReasonTimeout else StatusReasonBadRequest).
Proof.
  intros H w Hr.
  destruct (reaches_wait env h body p ns n d q H) as [b [Hl [-> [-> [Hh _]]]]].
  rewrite Hh, guarded_eq.
  unfold observed_running, observed_phase in Hr. unfold timed_out.
  unfold wait_and_upload. run. fold w.
  destruct (wr_err w) as [e|].
  { destruct e; eexists _, _; cbn [fst]; repeat split. }
  destruct (wr_ok w); cbn [negb].
  2:{ eexists _, _; cbn [fst]. repeat split. }
  rewrite Hr. cbn [negb].
  destruct (_ =? BuildPhaseError)%string;
    [eexists _, _; cbn [fst]; repeat split|].
  destruct (_ =? BuildPhaseFailed)%string;
    [eexists _, _; cbn [fst]; repeat split|].
  destruct (_ =? BuildPhaseCancelled)%string;
    eexists _, _; cbn [fst]; repeat split.
Qed.

(** The run whose build never runs is answered with 504, the run whose
    build fails with 400. *)
Lemma rejection_status_codes_witness :
  (exists e s,
     fst (handle Scenario.never_runs Scenario.handler Scenario.payload []) = Err e /\
     APIStatus e = Some s /\ Code s = 504 /\ Reason s = StatusReasonTimeout) /\
  (exists e s,
     fst (handle Scenario.build_fails Scenario.handler Scenario.payload []) = Err e /\
     APIStatus e = Some s /\ Code s = 400 /\ Reason s = StatusReasonBadRequest).
Proof.
  split.
  - pose (tr := snd (handle Scenario.never_runs Scenario.handler Scenario.payload [])).
    exact (rejection_status_codes Scenario.never_runs Scenario.handler Scenario.payload
             (firstn 7 tr) "demo" "app-1" (295 * Second) (skipn 8 tr) eq_refl eq_refl).
  - pose (tr := snd (handle Scenario.build_fails Scenario.handler Scenario.payload [])).
    exact (rejection_status_codes Scenario.build_fails Scenario.handler Scenario.payload
             (firstn 4 tr) "demo" "app-1" (298 * Second) (skipn 5 tr) eq_refl eq_refl).
Defined.

(** X11.
    When the REST client or the executor cannot be built, [handle] returns
    that error as it is (it is not wrapped as an internal error), the stream
    is never opened, and the cancellation is attempted right away. *)
Theorem client_setup_failure env h body p ns n d q b :
  snd (handle env h body []) = p ++ EvWaitForRunningBuild ns n d :: q ->
  launch_stage env h [] = (Ok (b, d), p) ->
  observed_phase (WaitForRunningBuild env p ns n d) = Some BuildPhaseRunning ->
  let t1 := p ++ [EvWaitForRunningBuild ns n d] in
  let a := attach_request env b in
  (forall e, RESTClientFor env t1 = Some e ->
     fst (handle env h body []) = Err e /\
     stream_called q = false /\
     exists c, q = EvRESTClientFor :: EvConvert b :: c) /\
  (forall e, RESTClientFor env t1 = None ->
     NewSPDYExecutor env (t1 ++ [EvRESTClientFor]) a = Some e ->
     fst (handle env h body []) = Err e /\
     stream_called q = false /\
     exists c, q = EvRESTClientFor :: EvNewSPDYExecutor a :: EvConvert b :: c).
Proof.
  intros H Hl Hph t1 a.
  destruct (reaches_wait env h body p ns n d q H) as [b' [Hl' [-> [-> [Hh _]]]]].
  rewrite Hl in Hl'. injection Hl' as <-.
  apply observed_running_iff in Hph.
  rewrite Hh in *. rewrite guarded_eq in *.
  rewrite (wait_running env h body b d p Hph) in *.
  rewrite upload_cases in *. cbv zeta in *. fold (wait_event b d) in t1.
  fold t1 in H |- *. fold a in H |- *.
  assert (Hns : forall c, forallb is_cancel_event c = true -> stream_called c = false).
  { intros c. apply existsb_none. intros x; destruct x; cbn; congruence. }
  split.
  - intros e He. rewrite He in *. cbn [fst snd] in *.
    destruct (cancelBuild_events env b (t1 ++ [EvRESTClientFor])) as [c [Hc Hcf]].
    rewrite Hc in H. unfold t1 in H. rewrite <- !app_assoc in H.
    apply app_inv_head in H. injection H as <-.
    split; [reflexivity|]. split; [|eauto]. cbn. apply Hns. exact Hcf.
  - intros e Hn He. rewrite Hn in *.
    replace (t1 ++ [EvRESTClientFor; EvNewSPDYExecutor a])
      with ((t1 ++ [EvRESTClientFor]) ++ [EvNewSPDYExecutor a]) in *
      by (rewrite <- app_assoc; reflexivity).
    rewrite He in *. cbn [fst snd] in *.
    destruct (cancelBuild_events env b ((t1 ++ [EvRESTClientFor]) ++ [EvNewSPDYExecutor a]))
      as [c [Hc Hcf]].
    rewrite Hc in H. unfold t1 in H. rewrite <- !app_assoc in H.
    apply app_inv_head in H. injection H as <-.
    split; [reflexivity|]. split; [|eauto]. cbn. apply Hns. exact Hcf.
Qed.

(** The runs in which the client, and the executor, cannot be built. *)
Lemma client_setup_failure_witness :
  fst (handle Edge.no_client Scenario.handler Scenario.payload []) =
  Err (GoError "no serializer") /\
  fst (handle Edge.no_executor Scenario.handler Scenario.payload []) =
  Err (GoError "bad TLS config").
Proof.
  pose (t1 := snd (handle Edge.no_client Scenario.handler Scenario.payload [])).
  pose (t2 := snd (handle Edge.no_executor Scenario.handler Scenario.payload [])).
  destruct (client_setup_failure Edge.no_client Scenario.handler Scenario.payload
              (firstn 4 t1) "demo" "app-1" (298 * Second) (skipn 5 t1)
              Scenario.launched eq_refl eq_refl eq_refl) as [H1 _].
  destruct (client_setup_failure Edge.no_executor Scenario.handler Scenario.payload
              (firstn 4 t2) "demo" "app-1" (298 * Second) (skipn 5 t2)
              Scenario.launched eq_refl eq_refl eq_refl) as [_ H2].
  split.
  - apply (H1 (GoError "no serializer")). reflexivity.
  - apply (H2 (GoError "bad TLS config")); reflexivity.
Defined.

(** X12.
    [handle] returns a build only at the end of a complete run: the launch
    succeeded, the wait reported phase Running, client and executor were
    built, the stream call was the last call and answered nil.  The build
    returned is the snapshot of the wait, and no cancellation was made. *)
Theorem success_means_streamed env h body v :
  fst (handle env h body []) = Ok v ->
  exists b d p,
    launch_stage env h [] = (Ok (b, d), p) /\
    let w := WaitForRunningBuild env p (buildapi.Namespace b) (buildapi.Name b) d in
    let a := attach_request env b in
    let t3 := p ++ [wait_event b d; EvRESTClientFor; EvNewSPDYExecutor a] in
    observed_phase w = Some BuildPhaseRunning /\
    v = wr_latest w /\
    snd (handle env h body []) = t3 ++ [EvStream a body] /\
    Stream env t3 a body = None /\
    cancel_attempted (snd (handle env h body [])) = false.
Proof.
  intros Hv. rewrite handle_stages in *.
  destruct (launch_stage_events env h []) as [evs [He Hf]]. cbn [app] in He.
  destruct (launch_stage env h []) as [x p]. cbn [snd] in He. subst evs.
  destruct x as [[b d]|e|]; [|discriminate|discriminate].
  exists b, d, p. split; [reflexivity|]. cbv zeta.
  pose proof (guarded_cases env h body b d p) as Hg. cbv zeta in Hg.
  set (w := WaitForRunningBuild env p _ _ d) in *.
  rewrite <- observed_running_iff.
  destruct (observed_running w).
  2:{ destruct Hg as [e Hg]. rewrite Hg in Hv. discriminate. }
  destruct Hg as [res [cancel [upl [Hu [_ Hg]]]]].
  rewrite Hg in *. cbn [fst] in Hv. subst res.
  rewrite upload_cases in Hu. cbv zeta in Hu.
  set (a := attach_request env b) in *.
  destruct (RESTClientFor env _); [discriminate|].
  destruct (NewSPDYExecutor env _ _); [discriminate|].
  replace ((p ++ [wait_event b d]) ++ [EvRESTClientFor; EvNewSPDYExecutor a])
    with (p ++ [wait_event b d; EvRESTClientFor; EvNewSPDYExecutor a]) in Hu
    by (rewrite <- app_assoc; reflexivity).
  destruct (Stream env _ a body) eqn:Hs; [discriminate|].
  injection Hu as Hv' Hc Ht. subst cancel. cbn [snd].
  split; [reflexivity|]. split; [congruence|].
  rewrite <- ?app_assoc in Ht. apply app_inv_head in Ht. cbn [app] in Ht.
  injection Ht as <-.
  split; [rewrite <- ?app_assoc; reflexivity|]. split; [reflexivity|].
  unfold cancel_attempted. rewrite !existsb_app. cbn.
  fold (cancel_attempted p). rewrite launch_not_cancel by exact Hf. reflexivity.
Qed.

(** The run that succeeds returns the snapshot of the wait. *)
Lemma success_means_streamed_witness :
  exists b d p,
    launch_stage Scenario.succeeds Scenario.handler [] = (Ok (b, d), p) /\
    Scenario.snapshot "3" BuildPhaseRunning EmptyString EmptyString =
    wr_latest (WaitForRunningBuild Scenario.succeeds p (buildapi.Namespace b)
                 (buildapi.Name b) d).
Proof.
  destruct (success_means_streamed Scenario.succeeds Scenario.handler Scenario.payload
              (Scenario.snapshot "3" BuildPhaseRunning EmptyString EmptyString) eq_refl)
    as [b [d [p [Hl [_ [Hv _]]]]]].
  exists b, d, p. split; [exact Hl|exact Hv].
Defined.



Lemma cancel_loop_refetch env n : forall vb t,
  exists evs,
    snd (WaitFor n (cancel_cond env) vb t) = t ++ evs /\
    refetch_discipline env t evs.
Proof.
  assert (Hone : forall t v, refetch_discipline env t [EvUpdateBuild v]).
  { intros t v. split; [|split].
    - intros p name q Hl. destruct p as [|x [|y p]]; discriminate.
    - intros p name q e Hl. destruct p as [|x [|y p]]; discriminate.
    - intros p u q Hl _. destruct p as [|x [|y p]]; cbn in Hl; try discriminate.
      injection Hl as _ <-. reflexivity. }
  assert (Htwo : forall t v e,
    UpdateBuild env t v = Some e -> IsConflict e = true ->
    refetch_discipline env t [EvUpdateBuild v; EvGetBuild (buildv1.Name v)]).
  { intros t v e Hu Hc. split; [|split].
    - intros p name q Hl. destruct p as [|x [|y [|z p]]]; cbn in Hl; try discriminate.
      injection Hl as <- <- _. exists [], v, e. rewrite app_nil_r. auto.
    - intros p name q e' Hl _. destruct p as [|x [|y [|z p]]]; cbn in Hl; try discriminate.
      injection Hl as _ _ <-. reflexivity.
    - intros p u q Hl Hnc. destruct p as [|x [|y [|z p]]]; cbn in Hl; try discriminate.
      injection Hl as <- _. rewrite app_nil_r in Hnc. apply Hnc in Hu. congruence. }
  induction n as [|n IH]; intros vb t; rewrite cancel_loop_step; cbv zeta;
    set (v := buildv1.set_Cancelled vb);
    destruct (UpdateBuild env t v) as [e|] eqn:Hup.
  - destruct (IsConflict e) eqn:Hc.
    + destruct (GetBuild env _ _); eexists; (split; [reflexivity|]);
        exact (Htwo t v e Hup Hc).
    + eexists. split; [reflexivity|apply Hone].
  - eexists. split; [reflexivity|apply Hone].
  - destruct (IsConflict e) eqn:Hc; [|eexists; split; [reflexivity|apply Hone]].
    destruct (GetBuild env _ _) as [fetched|e'] eqn:Hget.
    2:{ eexists. split; [reflexivity|]. exact (Htwo t v e Hup Hc). }
    destruct (IH fetched (t ++ [EvUpdateBuild v; EvGetBuild (buildv1.Name v)]))
      as [evs [Ht [H1 [H2 H3]]]].
    exists (EvUpdateBuild v :: EvGetBuild (buildv1.Name v) :: evs).
    split; [rewrite Ht, <- app_assoc; reflexivity|].
    split; [|split].
    + intros p name q Hl. destruct p as [|x [|y p]]; cbn in Hl.
      * discriminate.
      * injection Hl as <- <- _. exists [], v, e. rewrite app_nil_r. auto.
      * injection Hl as <- <- Hl.
        destruct (H1 p name q Hl) as [p' [u [e0 [Hp [Hn [Hu Hc0]]]]]].
        exists (EvUpdateBuild v :: EvGetBuild (buildv1.Name v) :: p'), u, e0.
        rewrite <- app_assoc in Hu. subst p. auto.
    + intros p name q e0 Hl Hg. destruct p as [|x [|y p]]; cbn in Hl.
      * discriminate.
      * injection Hl as <- <- _. exfalso.
        change (buildv1.Name vb) with (buildv1.Name v) in Hg. congruence.
      * injection Hl as <- <- Hl. apply (H2 p name q e0 Hl).
        rewrite <- app_assoc. exact Hg.
    + intros p u q Hl Hnc. destruct p as [|x [|y p]]; cbn in Hl.
      * injection Hl as <- _. rewrite app_nil_r in Hnc. apply Hnc in Hup. congruence.
      * discriminate.
      * injection Hl as <- <- Hl. apply (H3 p u q Hl).
        intros e0 He0. apply Hnc. rewrite <- app_assoc in He0. exact He0.
  - eexists. split; [reflexivity|apply Hone].
Qed.

(** X14.
    After the conversion and its first update, [cancelBuild] re-fetches only
    right after an update that was answered with a conflict, stops at a
    re-fetch that fails, and stops at an update that is accepted or fails
    for another reason. *)
Theorem cancel_refetches_only_on_conflict env build t vb :
  Convert env t build = inl vb ->
  let t2 := t ++ [EvConvert build; EvUpdateBuild (buildv1.set_Cancelled vb)] in
  exists loop,
    snd (cancelBuild env build t) = t2 ++ loop /\
    refetch_discipline env t2 loop.
Proof.
  intros Hc t2. unfold cancelBuild. run. rewrite Hc. unfold Poll.
  replace ((t ++ [EvConvert build]) ++ [EvUpdateBuild (buildv1.set_Cancelled vb)])
    with t2 by (unfold t2; rewrite <- app_assoc; reflexivity).
  set (n := poll_ticks _ _ _).
  destruct (cancel_loop_refetch env n (buildv1.set_Cancelled vb) t2) as [evs [Ht Hd]].
  destruct (WaitFor n _ _ t2) as [x t3]. cbn [snd] in *. subst t3.
  exists evs. auto.
Qed.

(** The cancellation of the run whose stream breaks. *)
Lemma cancel_refetches_only_on_conflict_witness :
  exists loop,
    snd (handle Scenario.stream_breaks Scenario.handler Scenario.payload []) =
    firstn 10 (snd (handle Scenario.stream_breaks Scenario.handler Scenario.payload []))
      ++ loop /\
    refetch_discipline Scenario.stream_breaks
      (firstn 10 (snd (handle Scenario.stream_breaks Scenario.handler Scenario.payload [])))
      loop.
Proof.
  pose (tr := snd (handle Scenario.stream_breaks Scenario.handler Scenario.payload [])).
  exact (cancel_refetches_only_on_conflict Scenario.stream_breaks Scenario.launched
           (firstn 8 tr) (Scenario.snapshot "1" BuildPhaseNew EmptyString EmptyString)
           eq_refl).
Defined.

(** X15.
    Once the build is converted, [cancelBuild] submits the update with the
    cancellation flag twice in a row, whatever the store answered to the
    first one; when the second one is accepted, or fails for another reason
    than a conflict, nothing follows. *)
Theorem cancel_submits_twice env build t vb :
  Convert env t build = inl vb ->
  let v := buildv1.set_Cancelled vb in
  let t2 := t ++ [EvConvert build; EvUpdateBuild v] in
  exists rest,
    snd (cancelBuild env build t) = t2 ++ EvUpdateBuild v :: rest /\
    buildv1.Cancelled (buildv1.Status v) = true /\
    ((forall e, UpdateBuild env t2 v = Some e -> IsConflict e = false) -> rest = []) /\
    (forall e, UpdateBuild env t2 v = Some e -> IsConflict e = true ->
       exists rest', rest = EvGetBuild (buildv1.Name v) :: rest').
Proof.
  intros Hc v t2. unfold cancelBuild. run. rewrite Hc. unfold Poll. fold v.
  replace ((t ++ [EvConvert build]) ++ [EvUpdateBuild v])
    with t2 by (unfold t2; rewrite <- app_assoc; reflexivity).
  set (n := poll_ticks _ _ _).
  rewrite cancel_loop_step. cbv zeta.
  change (buildv1.set_Cancelled v) with v.
  destruct (UpdateBuild env t2 v) as [e|] eqn:Hu.
  - destruct (IsConflict e) eqn:Hcf.
    + assert (Hfin : forall (x : option error * buildv1.Build) rest',
                exists rest,
                  snd (x, t2 ++ [EvUpdateBuild v; EvGetBuild (buildv1.Name v)] ++ rest') =
                  t2 ++ EvUpdateBuild v :: rest /\
                  buildv1.Cancelled (buildv1.Status v) = true /\
                  ((forall e0, Some e = Some e0 -> IsConflict e0 = false) -> rest = []) /\
                  (forall e0, Some e = Some e0 -> IsConflict e0 = true ->
                     exists rest'', rest = EvGetBuild (buildv1.Name v) :: rest'')).
      { intros x rest'. eexists. split; [reflexivity|]. split; [reflexivity|]. split.
        - intros Hn. rewrite (Hn e eq_refl) in Hcf. discriminate.
        - intros e0 _ _. eauto. }
      destruct (GetBuild env _ _) as [f|e']; [destruct n as [|m]|].
      * apply (Hfin (Some ErrWaitTimeout, f) []).
      * match goal with
        | |- context [WaitFor m ?c f ?tt] =>
            destruct (cancel_loop_refetch env m f tt) as [evs [Ht _]];
            destruct (WaitFor m c f tt) as [x t3]
        end.
        cbn [snd] in Ht. subst t3. rewrite <- app_assoc.
        apply (Hfin x evs).
      * apply (Hfin (Some e', v) []).
    + exists []. cbn [snd]. split; [reflexivity|]. split; [reflexivity|].
      split; [reflexivity|]. intros e0 He0 Hc0. congruence.
  - exists []. cbn [snd]. split; [reflexivity|]. split; [reflexivity|].
    split; [reflexivity|]. intros e0 He0. discriminate.
Qed.

(** The cancellation of the run whose build never runs: both updates are
    accepted. *)
Lemma cancel_submits_twice_witness :
  snd (cancelBuild Scenario.never_runs Scenario.launched []) =
  [EvConvert Scenario.launched;
   EvUpdateBuild (buildv1.set_Cancelled
                    (Scenario.snapshot "1" BuildPhaseNew EmptyString EmptyString));
   EvUpdateBuild (buildv1.set_Cancelled
                    (Scenario.snapshot "1" BuildPhaseNew EmptyString EmptyString))].
Proof.
  destruct (cancel_submits_twice Scenario.never_runs Scenario.launched []
              (Scenario.snapshot "1" BuildPhaseNew EmptyString EmptyString) eq_refl)
    as [rest [Ht [_ [Hn _]]]].
  rewrite Ht, Hn; [reflexivity|]. intros e He. discriminate.
Defined.

(** X16.
    The handler does not look at the snapshot of a wait that came back with
    an error or without [ok]: two phase trackers that agree on the error and
    on [ok], and never report a phase, drive [handle] through the same run
    with the same result. *)
Theorem latest_unread_without_phase env f g h body :
  (forall t ns n d,
     wr_err (f t ns n d) = wr_err (g t ns n d) /\
     wr_ok (f t ns n d) = wr_ok (g t ns n d) /\
     observed_phase (f t ns n d) = None) ->
  handle (with_wait env f) h body [] = handle (with_wait env g) h body [].
Proof.
  intros Hfg. rewrite !handle_stages.
  change (launch_stage (with_wait env f) h []) with (launch_stage env h []).
  change (launch_stage (with_wait env g) h []) with (launch_stage env h []).
  destruct (launch_stage env h []) as [x p].
  destruct x as [[b d]|e|]; try reflexivity.
  rewrite !guarded_eq.
  assert (Hw : wait_and_upload (with_wait env f) h body b d p =
               wait_and_upload (with_wait env g) h body b d p).
  { unfold wait_and_upload. run. cbn [WaitForRunningBuild with_wait NoBuildLogsMessage].
    destruct (Hfg p (buildapi.Namespace b) (buildapi.Name b) d) as [He [Ho Hn]].
    unfold observed_phase in Hn. rewrite <- He, <- Ho.
    destruct (wr_err (f p _ _ d)) as [e|]; [destruct e; reflexivity|].
    destruct (wr_ok (f p _ _ d)); [discriminate|reflexivity]. }
  rewrite Hw.
  destruct (wait_and_upload (with_wait env g) h body b d p) as [[res cancel] t2].
  change (cancelBuild (with_wait env f) b t2) with (cancelBuild env b t2).
  change (cancelBuild (with_wait env g) b t2) with (cancelBuild env b t2).
  reflexivity.
Qed.

(** Two trackers that report the deletion with different snapshots. *)
Lemma latest_unread_without_phase_witness :
  handle Edge.deleted Scenario.handler Scenario.payload [] =
  handle (with_wait Scenario.succeeds
            (fun _ _ _ _ =>
               {| wr_latest := Scenario.snapshot "9" BuildPhaseRunning "r" "m";
                  wr_ok := false;
                  wr_err := Some ErrBuildDeleted |}))
         Scenario.handler Scenario.payload [].
Proof.
  apply (latest_unread_without_phase Scenario.succeeds).
  intros t ns n d. repeat split.
Defined.
